(** * Real-Estate-Investment-Dashboard: the two Lambda handler modules

    A shallow embedding of [src/lambda/property_valuation.py] and
    [src/lambda/data_aggregation.py], and the properties of the dispatchers
    and of the synthetic-data operations.

    Conventions of the embedding.
    - Python numbers are [num]: an unbounded [int] or a [float].  The float
      arithmetic of the interpreter is an interface ([PyFloat]); every
      theorem stated for an arbitrary instance holds for IEEE doubles as
      for any other implementation.  [Qfloat] is the instance with exact
      rational arithmetic, used to run the code on concrete samples.
    - The process-wide random generator and the system clock are an explicit
      [World]: three oracles and the number of readings made so far.  Every
      call of [random.*] or [datetime.now()] reads its oracle at the current
      position and advances it, so that "for any outcome of the sampling"
      is a quantification over worlds.
    - A handler runs in [M], the state monad over [World] with Python
      exceptions.
    - [json.dumps(d)] is represented by the value [d] it serialises: the
      [body] of a response is that tree, with dictionaries in insertion
      order. *)

From Stdlib Require Import ZArith QArith Qpower Qround Lia Lqa.
From stdpp Require Import gmap strings list pretty.

Local Open Scope Z_scope.
#[local] Set Warnings "-register-all".

(** ** Floats and numbers *)

Class PyFloat (F : Type) := {
  float_of_int : Z → F;           (* the int -> float coercion of mixed arithmetic *)
  float_lit : Q → F;              (* a decimal literal of the source text *)
  fadd : F → F → F;
  fsub : F → F → F;
  fmul : F → F → F;
  fdiv : F → F → F;
  fpow : F → Z → F;               (* float ** int *)
  int_truediv : Z → Z → F;        (* int / int, non-zero divisor *)
  fltb : F → F → bool;            (* x < y *)
  fzerob : F → bool;              (* x == 0.0 *)
  fround2 : F → F                 (* round(x, 2) *)
}.

Inductive exn := ValueError | IndexError | ZeroDivisionError.

Inductive outcome (A : Type) :=
  | Ok (a : A)
  | Raise (e : exn).
Arguments Ok {A} a.
Arguments Raise {A} e.

Inductive num (F : Type) :=
  | I (n : Z)
  | Fl (x : F).
Arguments I {F} n.
Arguments Fl {F} x.

Inductive json (F : Type) :=
  | JNull
  | JBool (b : bool)
  | JNum (n : num F)
  | JStr (s : string)
  | JList (l : list (json F))
  | JDict (d : list (string * json F)).
Arguments JNull {F}.
Arguments JBool {F} b.
Arguments JNum {F} n.
Arguments JStr {F} s.
Arguments JList {F} l.
Arguments JDict {F} d.

Record World (F : Type) := {
  randbelow_src : nat → Z;   (* raw integers behind random.randint / random.choice *)
  random_src : nat → F;      (* the values of random.random() *)
  clock_src : nat → Z;       (* datetime.now(), microseconds since 1970-01-01T00:00:00 *)
  ticks : nat
}.
Arguments randbelow_src {F} w n.
Arguments random_src {F} w n.
Arguments clock_src {F} w n.
Arguments ticks {F} w.

Record response (F : Type) := {
  statusCode : Z;
  body : json F
}.
Arguments statusCode {F} r.
Arguments body {F} r.

Definition M (F A : Type) : Type := World F → outcome (A * World F).

#[global] Instance M_ret {F} : MRet (M F) := λ A a w, Ok (a, w).
#[global] Instance M_bind {F} : MBind (M F) := λ A B k m w,
  match m w with
  | Ok (a, w') => k a w'
  | Raise e => Raise e
  end.

Definition raise {F A} (e : exn) : M F A := λ _, Raise e.

(** A [for] statement over the list [xs] whose body updates the local
    variables [s]. *)
Fixpoint for_ {F S X} (xs : list X) (loop_body : X → S → M F S) (s : S) : M F S :=
  match xs with
  | [] => mret s
  | x :: xs' => s' ← loop_body x s; for_ xs' loop_body s'
  end.

(** [range(a, b)] *)
Definition range (a b : Z) : list Z := (λ k, a + Z.of_nat k) <$> seq 0 (Z.to_nat (b - a)).

(** [d.get(key, default)] on the request object. *)
Definition get {F} (event : gmap string (json F)) (key : string) (default_ : json F) : json F :=
  default default_ (event !! key).

(** [v == 'literal'] for a request value [v]. *)
Definition eq_str {F} (v : json F) (s : string) : bool :=
  match v with
  | JStr s' => bool_decide (s' = s)
  | _ => false
  end.

(** [d[key]] on a serialised dictionary; [None] where Python raises KeyError. *)
Fixpoint assoc {A} (key : string) (d : list (string * A)) : option A :=
  match d with
  | [] => None
  | (k, v) :: d' => if bool_decide (k = key) then Some v else assoc key d'
  end.

Definition item {F} (key : string) (j : json F) : option (json F) :=
  match j with
  | JDict d => assoc key d
  | _ => None
  end.

Definition keys {F} (j : json F) : list string :=
  match j with
  | JDict d => d.*1
  | _ => []
  end.

Section Runtime.
Context {F : Type} `{PyFloat F}.

Definition lit (q : Q) : num F := Fl (float_lit q).

Definition to_float (a : num F) : F :=
  match a with
  | I n => float_of_int n
  | Fl x => x
  end.

Definition num_add (a b : num F) : num F :=
  match a, b with
  | I m, I n => I (m + n)
  | _, _ => Fl (fadd (to_float a) (to_float b))
  end.

Definition num_sub (a b : num F) : num F :=
  match a, b with
  | I m, I n => I (m - n)
  | _, _ => Fl (fsub (to_float a) (to_float b))
  end.

Definition num_mul (a b : num F) : num F :=
  match a, b with
  | I m, I n => I (m * n)
  | _, _ => Fl (fmul (to_float a) (to_float b))
  end.

(** [a ** n] for an int exponent. *)
Definition num_pow (a : num F) (n : Z) : num F :=
  match a with
  | I m => if 0 <=? n then I (m ^ n) else Fl (fpow (float_of_int m) n)
  | Fl x => Fl (fpow x n)
  end.

(** [a < b]; a mixed comparison goes through the coercion, which is exact
    for |int| below 2^53 (the program compares floats with floats only). *)
Definition num_ltb (a b : num F) : bool :=
  match a, b with
  | I m, I n => m <? n
  | _, _ => fltb (to_float a) (to_float b)
  end.

(** [max(a, b)]: the first argument unless the second is greater. *)
Definition num_max (a b : num F) : num F :=
  if num_ltb a b then b else a.

(** [round(a, 2)] *)
Definition round2 (a : num F) : num F :=
  match a with
  | I n => I n
  | Fl x => Fl (fround2 x)
  end.

Definition num_is_zero (a : num F) : bool :=
  match a with
  | I n => n =? 0
  | Fl x => fzerob x
  end.

(** [a / b] *)
Definition truediv (a b : num F) : M F (num F) :=
  if num_is_zero b then raise ZeroDivisionError
  else mret (match a, b with
             | I m, I n => Fl (int_truediv m n)
             | _, _ => Fl (fdiv (to_float a) (to_float b))
             end).

(** [sum(xs)] *)
Definition sum (xs : list (num F)) : num F := foldl num_add (I 0) xs.

(** [len(xs)] *)
Definition len {A} (xs : list A) : num F := I (Z.of_nat (length xs)).

(** *** The random module *)

Definition tick (w : World F) : World F :=
  {| randbelow_src := randbelow_src w; random_src := random_src w;
     clock_src := clock_src w; ticks := S (ticks w) |}.

(** [random._randbelow(n)], n > 0 *)
Definition randbelow (n : Z) : M F Z :=
  λ w, Ok (randbelow_src w (ticks w) `mod` n, tick w).

(** [random.randint(a, b)]: [a + randbelow(b - a + 1)], ValueError on an
    empty range. *)
Definition randint (a b : Z) : M F Z :=
  if b <? a then raise ValueError
  else k ← randbelow (b - a + 1); mret (a + k).

(** [random.random()] *)
Definition random : M F F :=
  λ w, Ok (random_src w (ticks w), tick w).

(** [random.uniform(a, b)]: [a + (b - a) * random()] *)
Definition uniform (a b : num F) : M F (num F) :=
  r ← random; mret (num_add a (num_mul (num_sub b a) (Fl r))).

(** [random.choice(seq)]: [seq[randbelow(len(seq))]], IndexError on an
    empty sequence. *)
Definition choice {A} (xs : list A) : M F A :=
  match xs with
  | [] => raise IndexError
  | x :: _ => k ← randbelow (Z.of_nat (length xs)); mret (nth (Z.to_nat k) xs x)
  end.

(** *** datetime *)

(** [datetime.now()] *)
Definition now : M F Z :=
  λ w, Ok (clock_src w (ticks w), tick w).

(** [timedelta(days=d)] in microseconds *)
Definition timedelta_days (d : Z) : Z := d * 86400000000.
End Runtime.

Declare Scope py_scope.
Delimit Scope py_scope with py.
Infix "+" := num_add : py_scope.
Infix "-" := num_sub : py_scope.
Infix "*" := num_mul : py_scope.
Infix "**" := num_pow (at level 30, right associativity) : py_scope.

(** Formatting of dates (proleptic Gregorian calendar; years 1000..9999,
    where [%Y] and [isoformat] both print four digits). *)

Definition civil_from_days (z : Z) : Z * Z * Z :=
  let z := z + 719468 in
  let era := z / 146097 in
  let doe := z - era * 146097 in
  let yoe := (doe - doe / 1460 + doe / 36524 - doe / 146096) / 365 in
  let doy := doe - (365 * yoe + yoe / 4 - yoe / 100) in
  let mp := (5 * doy + 2) / 153 in
  let d := doy - (153 * mp + 2) / 5 + 1 in
  let m := if mp <? 10 then mp + 3 else mp - 9 in
  let y := yoe + era * 400 in
  (if m <=? 2 then y + 1 else y, m, d).

Fixpoint zeros (n : nat) : string :=
  match n with
  | O => ""
  | S n' => "0" +:+ zeros n'
  end.

(** [%0<width>d] *)
Definition zfill (width : nat) (n : Z) : string :=
  let s := pretty n in
  zeros (width - String.length s) +:+ s.

(** [t.strftime('%Y-%m')] *)
Definition strftime_Ym (t : Z) : string :=
  let '(y, m, _) := civil_from_days (t / 86400000000) in
  zfill 4 y +:+ "-" +:+ zfill 2 m.

(** [t.isoformat()]: the microseconds are printed unless they are zero. *)
Definition isoformat (t : Z) : string :=
  let '(y, m, d) := civil_from_days (t / 86400000000) in
  let us := t `mod` 86400000000 in
  let secs := us / 1000000 in
  let frac := us `mod` 1000000 in
  zfill 4 y +:+ "-" +:+ zfill 2 m +:+ "-" +:+ zfill 2 d +:+ "T" +:+
  zfill 2 (secs / 3600) +:+ ":" +:+ zfill 2 (secs `mod` 3600 / 60) +:+ ":" +:+
  zfill 2 (secs `mod` 60) +:+
  (if frac =? 0 then "" else "." +:+ zfill 6 frac).

(** ** src/lambda/property_valuation.py *)

Module PropertyValuation.
Section Code.
Context {F : Type} `{PyFloat F}.

Definition property_valuation (property_id : json F) : M F (response F) :=
  base_value ← randint 300000 800000;
  market_adjustment ← uniform (lit 0.95) (lit 1.15);
  location_factor ← uniform (lit 0.9) (lit 1.2);
  condition_factor ← uniform (lit 0.85) (lit 1.1);
  let current_value :=
    (I base_value * market_adjustment * location_factor * condition_factor)%py in
  comparables ← mapM (λ _ : Z,
    street_no ← randint 100 999;
    sold_price ← randint 280000 750000;
    today ← now;
    days ← randint 1 90;
    sqft ← randint 1200 3500;
    beds ← randint 2 5;
    baths ← randint 1 4;
    mret (JDict [
      ("address", JStr (pretty street_no +:+ " Main St"));
      ("sold_price", JNum (I sold_price));
      ("sold_date", JStr (isoformat (today - timedelta_days days)));
      ("sqft", JNum (I sqft));
      ("beds", JNum (I beds));
      ("baths", JNum (I baths))])) (range 0 5);
  confidence_score ← uniform (lit 0.75) (lit 0.95);
  valuation_date ← now;
  mret {|
    statusCode := 200;
    body := JDict [
      ("property_id", property_id);
      ("current_value", JNum (round2 current_value));
      ("confidence_score", JNum confidence_score);
      ("valuation_date", JStr (isoformat valuation_date));
      ("factors", JDict [
        ("market_adjustment", JNum market_adjustment);
        ("location_factor", JNum location_factor);
        ("condition_factor", JNum condition_factor)]);
      ("comparables", JList comparables);
      ("value_range", JDict [
        ("low", JNum (round2 (current_value * lit 0.9)%py));
        ("high", JNum (round2 (current_value * lit 1.1)%py))])]
  |}.

Definition market_analysis (property_id : json F) : M F (response F) :=
  trends ← for_ (range 0 12) (λ i trends,
    today ← now;
    let month := today - timedelta_days (30 * i) in
    median_price ← randint 400000 600000;
    listings ← randint 50 200;
    days_on_market ← randint 15 60;
    price_per_sqft ← randint 200 400;
    mret (trends ++ [JDict [
      ("month", JStr (strftime_Ym month));
      ("median_price", JNum (I median_price));
      ("listings", JNum (I listings));
      ("days_on_market", JNum (I days_on_market));
      ("price_per_sqft", JNum (I price_per_sqft))]])) [];
  market_health ← choice ["Strong"; "Stable"; "Growing"];
  buyer_demand ← choice ["High"; "Medium"; "Low"];
  inventory_level ← uniform (lit 1.5) (lit 6.5);
  coin ← random;
  analysis_date ← now;
  mret {|
    statusCode := 200;
    body := JDict [
      ("property_id", property_id);
      ("market_trends", JList trends);
      ("market_health", JStr market_health);
      ("buyer_demand", JStr buyer_demand);
      ("inventory_level", JNum inventory_level);
      ("recommendation",
         JStr (if num_ltb (lit 0.5) (Fl coin) then "Hold" else "Consider Selling"));
      ("analysis_date", JStr (isoformat analysis_date))]
  |}.

Definition value_prediction (property_id : json F) : M F (response F) :=
  current_value ← randint 400000 700000;
  predictions ← for_ (range 1 13) (λ i predictions,
    growth_rate ← uniform (lit 0.002) (lit 0.008);
    let predicted_value := (I current_value * (I 1 + growth_rate) ** i)%py in
    mret (predictions ++ [JDict [
      ("month", JNum (I i));
      ("predicted_value", JNum (round2 predicted_value));
      ("confidence", JNum (num_max (lit 0.95 - I i * lit 0.05)%py (lit 0.5)))]])) [];
  annual_growth_rate ← uniform (I 3) (I 8);
  prediction_date ← now;
  mret {|
    statusCode := 200;
    body := JDict [
      ("property_id", property_id);
      ("current_value", JNum (I current_value));
      ("predictions", JList predictions);
      ("annual_growth_rate", JNum annual_growth_rate);
      ("risk_factors", JList [
        JStr "Interest rate changes";
        JStr "Local market conditions";
        JStr "Economic indicators"]);
      ("prediction_date", JStr (isoformat prediction_date))]
  |}.

Definition lambda_handler (event : gmap string (json F)) (context : json F)
    : M F (response F) :=
  let property_id := get event "property_id" JNull in
  let analysis_type := get event "analysis_type" (JStr "valuation") in
  if eq_str analysis_type "valuation" then property_valuation property_id
  else if eq_str analysis_type "market_analysis" then market_analysis property_id
  else if eq_str analysis_type "prediction" then value_prediction property_id
  else mret {|
    statusCode := 400;
    body := JDict [("error", JStr "Invalid analysis type")]
  |}.
End Code.
End PropertyValuation.

(** ** src/lambda/data_aggregation.py *)

Module DataAggregation.
Section Code.
Context {F : Type} `{PyFloat F}.

(** The dictionaries that the code reads back after building them are
    records; [*_json] is their layout in the serialised body. *)

Record Property := {
  property_id : Z;
  current_value : Z;
  monthly_income : Z;
  monthly_expenses : Z;
  occupancy_rate : num F;
  last_updated : string
}.

Definition property_json (p : Property) : json F :=
  JDict [
    ("property_id", JNum (I (property_id p)));
    ("current_value", JNum (I (current_value p)));
    ("monthly_income", JNum (I (monthly_income p)));
    ("monthly_expenses", JNum (I (monthly_expenses p)));
    ("occupancy_rate", JNum (occupancy_rate p));
    ("last_updated", JStr (last_updated p))].

Definition aggregate_portfolio_data (user_id : json F) : M F (response F) :=
  '(properties, total_value, total_income, total_expenses) ←
    for_ (range 1 13) (λ i '(properties, total_value, total_income, total_expenses),
      value ← randint 300000 800000;
      income ← randint 2000 5000;
      expenses ← randint 500 1500;
      let total_value := total_value + value in
      let total_income := total_income + income in
      let total_expenses := total_expenses + expenses in
      occupancy ← uniform (lit 0.85) (lit 1.0);
      today ← now;
      mret (properties ++ [{|
              property_id := i;
              current_value := value;
              monthly_income := income;
              monthly_expenses := expenses;
              occupancy_rate := occupancy;
              last_updated := isoformat today |}],
            total_value, total_income, total_expenses))
      ([], 0, 0, 0);
  average_occupancy ← truediv (sum (occupancy_rate <$> properties)) (len properties);
  roi ← truediv (I ((total_income - total_expenses) * 12)) (I total_value);
  aggregation_date ← now;
  mret {|
    statusCode := 200;
    body := JDict [
      ("user_id", user_id);
      ("total_properties", JNum (len properties));
      ("total_value", JNum (I total_value));
      ("total_monthly_income", JNum (I total_income));
      ("total_monthly_expenses", JNum (I total_expenses));
      ("net_monthly_income", JNum (I (total_income - total_expenses)));
      ("average_occupancy", JNum average_occupancy);
      ("portfolio_roi", JNum (roi * I 100)%py);
      ("properties", JList (property_json <$> properties));
      ("aggregation_date", JStr (isoformat aggregation_date))]
  |}.

Definition aggregate_performance_metrics (user_id : json F) : M F (response F) :=
  ytd_return ← uniform (I 5) (I 15);
  mtd_return ← uniform (I (-2)) (I 5);
  total_roi ← uniform (I 6) (I 12);
  cash_on_cash_return ← uniform (I 5) (I 10);
  cap_rate ← uniform (I 4) (I 8);
  gross_rent_multiplier ← uniform (I 8) (I 15);
  let metrics := JDict [
    ("ytd_return", JNum ytd_return);
    ("mtd_return", JNum mtd_return);
    ("total_roi", JNum total_roi);
    ("cash_on_cash_return", JNum cash_on_cash_return);
    ("cap_rate", JNum cap_rate);
    ("gross_rent_multiplier", JNum gross_rent_multiplier)] in
  monthly_performance ← for_ (range 0 12) (λ i monthly_performance,
    today ← now;
    let month := today - timedelta_days (30 * i) in
    revenue ← randint 40000 60000;
    expenses ← randint 10000 20000;
    net_income ← randint 25000 40000;
    occupancy ← uniform (lit 0.85) (lit 0.98);
    mret (monthly_performance ++ [JDict [
      ("month", JStr (strftime_Ym month));
      ("revenue", JNum (I revenue));
      ("expenses", JNum (I expenses));
      ("net_income", JNum (I net_income));
      ("occupancy", JNum occupancy)]])) [];
  best_id ← randint 1 12;
  best_roi ← uniform (I 8) (I 12);
  worst_id ← randint 1 12;
  worst_roi ← uniform (I 4) (I 7);
  calculation_date ← now;
  mret {|
    statusCode := 200;
    body := JDict [
      ("user_id", user_id);
      ("metrics", metrics);
      ("monthly_performance", JList monthly_performance);
      ("best_performing_property", JDict [
        ("id", JNum (I best_id));
        ("name", JStr "Sunset Plaza Apartments");
        ("roi", JNum best_roi)]);
      ("worst_performing_property", JDict [
        ("id", JNum (I worst_id));
        ("name", JStr "Riverside Condominiums");
        ("roi", JNum worst_roi)]);
      ("calculation_date", JStr (isoformat calculation_date))]
  |}.

Record Income := {
  rental : Z;
  other : Z
}.

Record Expenses := {
  mortgage : Z;
  maintenance : Z;
  property_tax : Z;
  insurance : Z;
  utilities : Z;
  management : Z
}.

Record CashflowItem := {
  month : string;
  income : Income;
  expenses : Expenses;
  net_cashflow : Z;
  cumulative_cashflow : Z
}.

Definition cashflow_json (c : CashflowItem) : json F :=
  JDict [
    ("month", JStr (month c));
    ("income", JDict [
      ("rental", JNum (I (rental (income c))));
      ("other", JNum (I (other (income c))))]);
    ("expenses", JDict [
      ("mortgage", JNum (I (mortgage (expenses c))));
      ("maintenance", JNum (I (maintenance (expenses c))));
      ("property_tax", JNum (I (property_tax (expenses c))));
      ("insurance", JNum (I (insurance (expenses c))));
      ("utilities", JNum (I (utilities (expenses c))));
      ("management", JNum (I (management (expenses c))))]);
    ("net_cashflow", JNum (I (net_cashflow c)));
    ("cumulative_cashflow", JNum (I (cumulative_cashflow c)))].

Definition aggregate_cashflow_data (user_id : json F) : M F (response F) :=
  cashflow_items ← for_ (range 0 6) (λ month_index cashflow_items,
    today ← now;
    let date := today - timedelta_days (30 * month_index) in
    rental_income ← randint 40000 55000;
    mortgage_payments ← randint 20000 25000;
    maintenance_cost ← randint 2000 5000;
    property_tax_due ← randint 3000 5000;
    insurance_cost ← randint 1500 2500;
    utilities_cost ← randint 1000 2000;
    property_management ← randint 3000 4000;
    let total_expenses :=
      mortgage_payments + maintenance_cost + property_tax_due + insurance_cost
      + utilities_cost + property_management in
    let net := rental_income - total_expenses in
    other_income ← randint 0 2000;
    mret (cashflow_items ++ [{|
      month := strftime_Ym date;
      income := {| rental := rental_income; other := other_income |};
      expenses := {|
        mortgage := mortgage_payments;
        maintenance := maintenance_cost;
        property_tax := property_tax_due;
        insurance := insurance_cost;
        utilities := utilities_cost;
        management := property_management |};
      net_cashflow := net;
      cumulative_cashflow := net * (month_index + 1) |}])) [];
  let net_cashflow_ytd := sum ((λ c, I (net_cashflow c)) <$> cashflow_items) in
  average_monthly_cashflow ← truediv net_cashflow_ytd (len cashflow_items);
  aggregation_date ← now;
  mret {|
    statusCode := 200;
    body := JDict [
      ("user_id", user_id);
      ("cashflow_summary", JList (cashflow_json <$> cashflow_items));
      ("total_income_ytd",
         JNum (sum ((λ c, I (rental (income c) + other (income c))) <$> cashflow_items)));
      ("total_expenses_ytd",
         JNum (sum ((λ c, I (mortgage (expenses c) + maintenance (expenses c)
                             + property_tax (expenses c) + insurance (expenses c)
                             + utilities (expenses c) + management (expenses c)))
                    <$> cashflow_items)));
      ("net_cashflow_ytd", JNum net_cashflow_ytd);
      ("average_monthly_cashflow", JNum average_monthly_cashflow);
      ("aggregation_date", JStr (isoformat aggregation_date))]
  |}.

Record MaintenanceItem := {
  m_id : Z;
  m_property_id : Z;
  m_type : string;
  m_category : string;
  m_cost : Z;
  m_date : string;
  m_status : string;
  m_vendor : string
}.

Definition maintenance_json (m : MaintenanceItem) : json F :=
  JDict [
    ("id", JNum (I (m_id m)));
    ("property_id", JNum (I (m_property_id m)));
    ("type", JStr (m_type m));
    ("category", JStr (m_category m));
    ("cost", JNum (I (m_cost m)));
    ("date", JStr (m_date m));
    ("status", JStr (m_status m));
    ("vendor", JStr (m_vendor m))].

(** [len([m for m in maintenance_items if m['type'] == t])] *)
Definition count_type (t : string) (maintenance_items : list MaintenanceItem) : num F :=
  len (filter (λ m, m_type m = t) maintenance_items).

Definition aggregate_maintenance_data (user_id : json F) : M F (response F) :=
  maintenance_items ← for_ (range 0 20) (λ i maintenance_items,
    today ← now;
    days ← randint 1 365;
    let date := today - timedelta_days days in
    prop ← randint 1 12;
    type ← choice ["Routine"; "Emergency"; "Preventive"; "Upgrade"];
    category ← choice ["Plumbing"; "Electrical"; "HVAC"; "Roofing"; "Painting";
                       "Landscaping"];
    cost ← randint 100 5000;
    status ← choice ["Completed"; "In Progress"; "Scheduled"];
    vendor_no ← randint 1 10;
    mret (maintenance_items ++ [{|
      m_id := i + 1;
      m_property_id := prop;
      m_type := type;
      m_category := category;
      m_cost := cost;
      m_date := isoformat date;
      m_status := status;
      m_vendor := "Vendor " +:+ pretty vendor_no |}])) [];
  let total_cost := sum ((λ m, I (m_cost m)) <$> maintenance_items) in
  avg_cost ← truediv total_cost (len maintenance_items);
  upcoming_maintenance ← randint 2 8;
  aggregation_date ← now;
  mret {|
    statusCode := 200;
    body := JDict [
      ("user_id", user_id);
      ("maintenance_items", JList (maintenance_json <$> maintenance_items));
      ("total_maintenance_cost", JNum total_cost);
      ("average_cost_per_item", JNum avg_cost);
      ("maintenance_by_type", JDict [
        ("Routine", JNum (count_type "Routine" maintenance_items));
        ("Emergency", JNum (count_type "Emergency" maintenance_items));
        ("Preventive", JNum (count_type "Preventive" maintenance_items));
        ("Upgrade", JNum (count_type "Upgrade" maintenance_items))]);
      ("upcoming_maintenance", JNum (I upcoming_maintenance));
      ("aggregation_date", JStr (isoformat aggregation_date))]
  |}.

Definition lambda_handler (event : gmap string (json F)) (context : json F)
    : M F (response F) :=
  let aggregation_type := get event "type" (JStr "portfolio") in
  let user_id := get event "user_id" (JStr "1") in
  if eq_str aggregation_type "portfolio" then aggregate_portfolio_data user_id
  else if eq_str aggregation_type "performance" then aggregate_performance_metrics user_id
  else if eq_str aggregation_type "cashflow" then aggregate_cashflow_data user_id
  else if eq_str aggregation_type "maintenance" then aggregate_maintenance_data user_id
  else mret {|
    statusCode := 400;
    body := JDict [("error", JStr "Invalid aggregation type")]
  |}.
End Code.
End DataAggregation.

(** ** Exact rational arithmetic as an instance of the float interface *)

(** Round to the nearest integer, ties to the even one: the rule of
    Python's [round]. *)
Definition round_half_even (y : Q) : Z :=
  let f := Qfloor y in
  match (y - inject_Z f ?= 1 # 2)%Q with
  | Lt => f
  | Gt => f + 1
  | Eq => if Z.even f then f else f + 1
  end.

Definition Qround2 (x : Q) : Q := Qred (inject_Z (round_half_even (x * 100)) / 100).

#[global] Instance Qfloat : PyFloat Q := {|
  float_of_int := inject_Z;
  float_lit := Qred;
  fadd x y := Qred (x + y);
  fsub x y := Qred (x - y);
  fmul x y := Qred (x * y);
  fdiv x y := Qred (x / y);
  fpow x n := Qred (x ^ n);
  int_truediv m n := Qred (inject_Z m / inject_Z n);
  fltb x y := match (x ?= y)%Q with Lt => true | _ => false end;
  fzerob x := Qeq_bool x 0;
  fround2 := Qround2
|}.

(** ** Reading the samples of a call *)

Section Samples.
Context {F : Type} `{PyFloat F}.

(** The world after [n] more readings. *)
Definition skip (n : nat) (w : World F) : World F :=
  {| randbelow_src := randbelow_src w; random_src := random_src w;
     clock_src := clock_src w; ticks := n + ticks w |}.

Definition randint_val (raw a b : Z) : Z := a + raw `mod` (b - a + 1).

Definition uniform_val (r : F) (a b : num F) : num F := (a + (b - a) * Fl r)%py.

(** What [random.randint(a, b)] and [random.uniform(a, b)] return when
    they are the [k]-th reading after [w]. *)
Definition randint_at (w : World F) (k : nat) (a b : Z) : Z :=
  randint_val (randbelow_src w (k + ticks w)) a b.

Definition uniform_at (w : World F) (k : nat) (a b : num F) : num F :=
  uniform_val (random_src w (k + ticks w)) a b.

(** [m] run in [w] returns normally, with a result and a final world
    in [P]. *)
Definition returns {A} (m : M F A) (w : World F) (P : A → World F → Prop) : Prop :=
  match m w with
  | Ok (a, w') => P a w'
  | Raise _ => False
  end.
End Samples.

(** ** Vocabulary of the properties *)

(** Runtimes whose float arithmetic is monotone, as correctly rounded
    arithmetic is. *)
Class PyFloatOrder (F : Type) `{PyFloat F} := {
  fle : F → F → Prop;
  float_of_int_mono : ∀ m n, m ≤ n → fle (float_of_int m) (float_of_int n);
  fadd_nonneg : ∀ z x, fle (float_of_int 0) x → fle z (fadd z x);
  fadd_mono_r : ∀ z x y, fle x y → fle (fadd z x) (fadd z y);
  fmul_mono_r : ∀ z x y, fle (float_of_int 0) z → fle x y → fle (fmul z x) (fmul z y);
  fpow_mono : ∀ x y i j,
    fle (float_of_int 1) x → fle x y → 1 ≤ i ≤ j → fle (fpow x i) (fpow y j);
  fround2_mono : ∀ x y, fle x y → fle (fround2 x) (fround2 y)
}.


Definition Zsum (xs : list Z) : Z := foldr Z.add 0 xs.

Definition in_range (lo hi x : Z) : Prop := lo ≤ x ≤ hi.

(** The entry of [predictions] for month [i], from the values the loop body
    of [value_prediction] has at hand. *)
Definition prediction {F} `{PyFloat F} (current_value i : Z) (growth_rate : num F)
    : json F :=
  JDict [
    ("month", JNum (I i));
    ("predicted_value", JNum (round2 (I current_value * (I 1 + growth_rate) ** i)%py));
    ("confidence", JNum (num_max (lit 0.95 - I i * lit 0.05)%py (lit 0.5)))].

(** The projection series of a call of [value_prediction] started in [w]:
    reading 0 is the current value, reading [i] the growth rate of month [i]. *)
Definition predictions_of {F} `{PyFloat F} (w : World F) : list (json F) :=
  (λ i, prediction (randint_at w 0 400000 700000) i
          (uniform_at w (Z.to_nat i) (lit 0.002) (lit 0.008))) <$> range 1 13.

(** The [predicted_value] fields of a response, in month order. *)
Definition predicted_values {F} (r : response F) : option (list (json F)) :=
  match item "predictions" (body r) with
  | Some (JList predictions) => mapM (item "predicted_value") predictions
  | _ => None
  end.

(** The twelve values are the compound growth of [current_value] at one
    rate, up to [rounding]. *)
Definition compounded_at_one_rate {F} `{PyFloat F} (rounding : num F → num F)
    (current_value : Z) (values : list (json F)) : Prop :=
  ∃ growth_rate : num F,
    values = (λ i, JNum (rounding (I current_value * (I 1 + growth_rate) ** i)%py))
             <$> range 1 13.


Definition expenses_total (e : DataAggregation.Expenses) : Z :=
  DataAggregation.mortgage e + DataAggregation.maintenance e
  + DataAggregation.property_tax e + DataAggregation.insurance e
  + DataAggregation.utilities e + DataAggregation.management e.

(** What the loop of the cash-flow operation stores for month index [m]. *)
Definition cashflow_month (m : nat) (c : DataAggregation.CashflowItem) : Prop :=
  DataAggregation.net_cashflow c
    = DataAggregation.rental (DataAggregation.income c)
      - expenses_total (DataAggregation.expenses c) ∧
  DataAggregation.cumulative_cashflow c
    = DataAggregation.net_cashflow c * (Z.of_nat m + 1) ∧
  in_range 40000 55000 (DataAggregation.rental (DataAggregation.income c)) ∧
  in_range 0 2000 (DataAggregation.other (DataAggregation.income c)).

Definition maintenance_types : list string :=
  ["Routine"; "Emergency"; "Preventive"; "Upgrade"].

(** The selectors each dispatcher recognises. *)
Definition selectors_A : list string :=
  ["portfolio"; "performance"; "cashflow"; "maintenance"].

Definition selectors_B : list string :=
  ["valuation"; "market_analysis"; "prediction"].

Definition recognised {F} (selectors : list string) (v : json F) : Prop :=
  v ∈ (JStr <$> selectors).

Definition error_envelope {F} (message : string) : response F :=
  {| statusCode := 400; body := JDict [("error", JStr message)] |}.

(** *** Concrete samples *)

(** The generator answers 1/2 to the second reading and 0 to all others:
    in [value_prediction] the rate of month 1 is 0.005 and the rate of every
    later month 0.002. *)
Definition w_rates : World Q := {|
  randbelow_src := λ _, 0;
  random_src := λ n, if (n =? 1)%nat then (1 # 2)%Q else 0%Q;
  clock_src := λ _, 1793705445000123;
  ticks := 0
|}.

(** The ninth reading, [other] income of the first cash-flow month, is 1. *)
Definition w_other : World Q := {|
  randbelow_src := λ n, if (n =? 8)%nat then 1 else 0;
  random_src := λ _, 0%Q;
  clock_src := λ _, 1793705445000123;
  ticks := 0
|}.

(** The first cash-flow month draws the least of every range, the later
    months one more. *)
Definition w_months : World Q := {|
  randbelow_src := λ n, if (n <? 9)%nat then 0 else 1;
  random_src := λ _, 0%Q;
  clock_src := λ _, 1793705445000123;
  ticks := 0
|}.

Definition bogus_event : gmap string (json Q) :=
  {[ "analysis_type" := JStr "bogus"; "type" := JStr "bogus" ]}.

Definition prediction_event : gmap string (json Q) :=
  {[ "analysis_type" := JStr "prediction" ]}.

(** ** Vocabulary of the further properties *)

(** Runtimes whose comparison agrees with the order and whose arithmetic
    keeps signs and scales as the exact operations do. *)
Class PyFloatLaws (F : Type) `{PyFloatOrder F} := {
  fle_refl : ∀ x, fle x x;
  fle_trans : ∀ x y z, fle x y → fle y z → fle x z;
  fltb_true : ∀ x y, fltb x y = true → fle x y;
  fltb_false : ∀ x y, fltb x y = false → fle y x;
  float_lit_nonneg : ∀ q, (0 <= q)%Q → fle (float_of_int 0) (float_lit q);
  fsub_lit_nonneg : ∀ p q,
    (p <= q)%Q → fle (float_of_int 0) (fsub (float_lit q) (float_lit p));
  fsub_mono_r : ∀ z x y, fle x y → fle (fsub z y) (fsub z x);
  fmul_mono_l : ∀ z x y, fle (float_of_int 0) z → fle x y → fle (fmul x z) (fmul y z);
  fmul_nonneg : ∀ x y,
    fle (float_of_int 0) x → fle (float_of_int 0) y → fle (float_of_int 0) (fmul x y);
  fmul_lit_le : ∀ x q,
    fle (float_of_int 0) x → (0 <= q <= 1)%Q → fle (fmul x (float_lit q)) x;
  fmul_lit_ge : ∀ x q,
    fle (float_of_int 0) x → (1 <= q)%Q → fle x (fmul x (float_lit q))
}.


(** The value of [a / b] for a non-zero [b]. *)
Definition quotient {F} `{PyFloat F} (a b : num F) : num F :=
  match a, b with
  | I m, I n => Fl (int_truediv m n)
  | _, _ => Fl (fdiv (to_float a) (to_float b))
  end.

(** The confidence of month [i] in [value_prediction]. *)
Definition confidence_of {F} `{PyFloat F} (i : Z) : num F :=
  num_max (lit 0.95 - I i * lit 0.05)%py (lit 0.5).





(** The sampling ranges of a cash-flow month. *)
Definition cashflow_ranges (c : DataAggregation.CashflowItem) : Prop :=
  in_range 40000 55000 (DataAggregation.rental (DataAggregation.income c)) ∧
  in_range 0 2000 (DataAggregation.other (DataAggregation.income c)) ∧
  in_range 20000 25000 (DataAggregation.mortgage (DataAggregation.expenses c)) ∧
  in_range 2000 5000 (DataAggregation.maintenance (DataAggregation.expenses c)) ∧
  in_range 3000 5000 (DataAggregation.property_tax (DataAggregation.expenses c)) ∧
  in_range 1500 2500 (DataAggregation.insurance (DataAggregation.expenses c)) ∧
  in_range 1000 2000 (DataAggregation.utilities (DataAggregation.expenses c)) ∧
  in_range 3000 4000 (DataAggregation.management (DataAggregation.expenses c)).




(** *** Further concrete samples *)

(** The first cash-flow month draws the least rental income and the most
    of every expense. *)
Definition w_deficit : World Q := {|
  randbelow_src := λ n,
    match n with
    | 2%nat => 5000
    | 3%nat => 3000
    | 4%nat => 2000
    | 5%nat | 6%nat | 7%nat => 1000
    | _ => 0
    end;
  random_src := λ _, 0%Q;
  clock_src := λ _, 1793705445000123;
  ticks := 0
|}.


(** A request carrying both subject identifiers. *)
Definition echo_event : gmap string (json Q) :=
  {[ "type" := JStr "cashflow"; "user_id" := JStr "42";
     "analysis_type" := JStr "market_analysis"; "property_id" := JNum (I 17) ]}.

(** * Properties *)

(** ** Date formatting on known dates *)

Example isoformat_ex : isoformat 1793705445000123 = "2026-11-03T11:30:45.000123".
Proof. vm_compute. reflexivity. Qed.

Example isoformat_leap_day :
  isoformat 1709164800000000 = "2024-02-29T00:00:00" ∧
  strftime_Ym 1709164800000000 = "2024-02".
Proof. vm_compute. split; reflexivity. Qed.

(** ** Rules for running a handler *)

Section Rules.
Context {F : Type} `{PyFloat F}.
Implicit Types w : World F.

Lemma returns_ret {A} (a : A) w (P : A → World F → Prop) :
  P a w → returns (mret a) w P.
Proof. done. Qed.

Lemma returns_bind {A B} (m : M F A) (k : A → M F B) w (P : B → World F → Prop) :
  returns m w (λ a w', returns (k a) w' P) → returns (m ≫= k) w P.
Proof.
  unfold returns, mbind, M_bind. destruct (m w) as [[a w']|e]; done.
Qed.

Lemma returns_mono {A} (m : M F A) w (P Q : A → World F → Prop) :
  returns m w P → (∀ a w', P a w' → Q a w') → returns m w Q.
Proof.
  unfold returns. destruct (m w) as [[a w']|e]; [|done]. intros HP HPQ. by apply HPQ.
Qed.

Lemma returns_Ok {A} (m : M F A) w (P : A → World F → Prop) :
  returns m w P ↔ ∃ a w', m w = Ok (a, w') ∧ P a w'.
Proof.
  unfold returns. destruct (m w) as [[a w']|e].
  - split; [by eauto|]. by intros (? & ? & [= <- <-] & ?).
  - split; [done|]. by intros (? & ? & ? & ?).
Qed.

Lemma randint_val_bounds raw a b : a ≤ b → a ≤ randint_val raw a b ≤ b.
Proof.
  intros Hab. unfold randint_val.
  pose proof (Z.mod_pos_bound raw (b - a + 1)). lia.
Qed.

Lemma randint_returns a b w (P : Z → World F → Prop) :
  a ≤ b → P (randint_at w 0 a b) (tick w) → returns (randint a b) w P.
Proof.
  intros Hab HP. unfold returns, randint.
  destruct (Z.ltb_spec b a); [lia|]. done.
Qed.

Lemma random_returns w (P : F → World F → Prop) :
  P (random_src w (ticks w)) (tick w) → returns random w P.
Proof. done. Qed.

Lemma uniform_returns a b w (P : num F → World F → Prop) :
  P (uniform_at w 0 a b) (tick w) → returns (uniform a b) w P.
Proof. done. Qed.

Lemma now_returns w (P : Z → World F → Prop) :
  P (clock_src w (ticks w)) (tick w) → returns now w P.
Proof. done. Qed.

Lemma choice_returns {A} (xs : list A) w (P : A → World F → Prop) :
  xs ≠ [] → (∀ x, x ∈ xs → P x (tick w)) → returns (choice xs) w P.
Proof.
  intros Hne HP. destruct xs as [|x xs]; [done|].
  unfold returns, choice. cbn -[length nth Z.of_nat].
  apply HP. apply list_elem_of_In, nth_In.
  pose proof (Z.mod_pos_bound (randbelow_src w (ticks w)) (Z.of_nat (length (x :: xs)))).
  cbn [length] in *. lia.
Qed.

Lemma truediv_returns (a b : num F) w (P : num F → World F → Prop) :
  num_is_zero b = false → (∀ q, P q w) → returns (truediv a b) w P.
Proof.
  intros Hb HP. unfold returns, truediv. rewrite Hb. apply HP.
Qed.

(** The loop rule: [Inv done s w] holds of the locals and the world once
    the elements [done] have been processed. *)
Lemma for_returns {S X} (Inv : list X → S → World F → Prop)
    (xs : list X) (loop_body : X → S → M F S) s w :
  Inv [] s w →
  (∀ done x rest s' w', xs = done ++ x :: rest → Inv done s' w' →
     returns (loop_body x s') w' (Inv (done ++ [x]))) →
  returns (for_ xs loop_body s) w (Inv xs).
Proof.
  intros Hinit Hstep.
  cut (∀ todo done s' w', xs = done ++ todo → Inv done s' w' →
         returns (for_ todo loop_body s') w' (Inv xs)).
  { intros Hgen. by apply (Hgen xs []). }
  induction todo as [|x todo IH]; intros done s' w' Hxs Hinv.
  - rewrite app_nil_r in Hxs. subst. by apply returns_ret.
  - cbn [for_]. apply returns_bind.
    eapply returns_mono; [by eapply Hstep|].
    intros s'' w'' Hinv'. apply (IH (done ++ [x])); [|done].
    by rewrite <- app_assoc.
Qed.

Lemma mapM_returns {X Y} (Q : Y → Prop) (f : X → M F Y) (xs : list X) w :
  (∀ x w', returns (f x) w' (λ y _, Q y)) →
  returns (mapM f xs) w (λ ys _, length ys = length xs ∧ Forall Q ys).
Proof.
  intros Hf. revert w. induction xs as [|x xs IH]; intros w.
  - by apply returns_ret.
  - cbn [mapM]. apply returns_bind.
    eapply returns_mono; [apply Hf|]. intros y w' Hy. cbv beta.
    apply returns_bind. eapply returns_mono; [apply IH|].
    intros ys w'' [Hlen Hys]. apply returns_ret. cbn. auto.
Qed.

Lemma range_split a b done x rest :
  range a b = done ++ x :: rest → x = a + Z.of_nat (length done).
Proof.
  intros Hr.
  assert (range a b !! length done = Some x) as Hx.
  { rewrite Hr. by rewrite list_lookup_middle. }
  unfold range in Hx. rewrite list_lookup_fmap in Hx.
  destruct (seq 0 (Z.to_nat (b - a)) !! length done) as [k|] eqn:Hk; [|done].
  apply lookup_seq in Hk as [-> _]. by injection Hx as <-.
Qed.

Lemma length_range a b : length (range a b) = Z.to_nat (b - a).
Proof. unfold range. by rewrite length_fmap, length_seq. Qed.


Lemma eq_str_true (v : json F) s : eq_str v s = true ↔ v = JStr s.
Proof.
  destruct v; cbn; try (split; [done|by intros [=]]).
  rewrite bool_decide_eq_true. split; [by intros ->|by intros [= ->]].
Qed.

Lemma Zsum_snoc xs x : Zsum (xs ++ [x]) = Zsum xs + x.
Proof. unfold Zsum. induction xs as [|y xs IH]; cbn; lia. Qed.

Lemma Zsum_lower_bound c xs :
  Forall (λ x, c ≤ x) xs → c * Z.of_nat (length xs) ≤ Zsum xs.
Proof. unfold Zsum. induction 1; cbn [length foldr]; lia. Qed.

Lemma sum_ints (xs : list Z) : sum (I <$> xs) = (I (Zsum xs) : num F).
Proof.
  unfold sum.
  cut (∀ acc, foldl num_add (I acc) (I <$> xs) = (I (acc + Zsum xs) : num F)).
  { intros Hacc. by rewrite Hacc. }
  induction xs as [|x xs IH]; intros acc; cbn.
  - f_equal. unfold Zsum. cbn. lia.
  - rewrite IH. f_equal. unfold Zsum. cbn. lia.
Qed.

Lemma sum_ints_with {A} (f : A → Z) (xs : list A) :
  sum ((λ x, I (f x)) <$> xs) = (I (Zsum (f <$> xs)) : num F).
Proof. rewrite <- sum_ints. by rewrite <- list_fmap_compose. Qed.
End Rules.

(** One step of a handler: the rule of the statement at the head. *)
Ltac run_step :=
  lazymatch goal with
  | |- returns (mret _) _ _ => apply returns_ret
  | |- returns (_ ≫= _) _ _ => apply returns_bind
  | |- returns (randint _ _) _ _ => apply randint_returns; [lia|]
  | |- returns (uniform _ _) _ _ => apply uniform_returns
  | |- returns random _ _ => apply random_returns
  | |- returns now _ _ => apply now_returns
  | |- returns (choice _) _ _ => apply choice_returns; [done|intros ? ?]
  | |- returns (truediv _ _) _ _ => apply truediv_returns; [|intros ?]
  end; cbv beta zeta.

Ltac run := repeat run_step.

(** ** What each operation returns *)

Section Operations.
Context {F : Type} `{PyFloat F}.

Lemma property_valuation_spec property_id (w : World F) :
  let base_value := randint_at w 0 300000 800000 in
  let market_adjustment := uniform_at w 1 (lit 0.95) (lit 1.15) in
  let location_factor := uniform_at w 2 (lit 0.9) (lit 1.2) in
  let condition_factor := uniform_at w 3 (lit 0.85) (lit 1.1) in
  let current_value :=
    (I base_value * market_adjustment * location_factor * condition_factor)%py in
  returns (PropertyValuation.property_valuation property_id) w (λ r _,
    ∃ confidence_score valuation_date comparables,
      length comparables = 5%nat ∧
      r = {| statusCode := 200;
             body := JDict [
               ("property_id", property_id);
               ("current_value", JNum (round2 current_value));
               ("confidence_score", JNum confidence_score);
               ("valuation_date", JStr valuation_date);
               ("factors", JDict [
                  ("market_adjustment", JNum market_adjustment);
                  ("location_factor", JNum location_factor);
                  ("condition_factor", JNum condition_factor)]);
               ("comparables", JList comparables);
               ("value_range", JDict [
                  ("low", JNum (round2 (current_value * lit 0.9)%py));
                  ("high", JNum (round2 (current_value * lit 1.1)%py))])] |}).
Proof.
  intros. unfold PropertyValuation.property_valuation. do 8 run_step.
  apply returns_bind.
  eapply returns_mono.
  { apply (mapM_returns (λ _, True)). intros _ w'. run. done. }
  intros comparables w' [Hlen _]. cbv beta. run.
  eexists _, _, comparables. split; [by rewrite Hlen|done].
Qed.

Lemma market_analysis_spec property_id (w : World F) :
  returns (PropertyValuation.market_analysis property_id) w (λ r _,
    ∃ rest, r = {| statusCode := 200;
                   body := JDict (("property_id", property_id) :: rest) |}).
Proof.
  unfold PropertyValuation.market_analysis. apply returns_bind.
  eapply returns_mono.
  { apply (for_returns (λ _ _ _, True)); [done|].
    intros. run. done. }
  intros trends w' _. cbv beta. run. eauto.
Qed.

(** The call makes fifteen readings: the current value, one growth rate
    in each of the twelve iterations, the displayed annual rate and the
    clock. *)
Lemma value_prediction_spec property_id (w : World F) :
  returns (PropertyValuation.value_prediction property_id) w (λ r w',
    w' = skip 15 w ∧
    ∃ annual_growth_rate prediction_date,
      r = {| statusCode := 200;
             body := JDict [
               ("property_id", property_id);
               ("current_value", JNum (I (randint_at w 0 400000 700000)));
               ("predictions", JList (predictions_of w));
               ("annual_growth_rate", JNum annual_growth_rate);
               ("risk_factors", JList [
                  JStr "Interest rate changes";
                  JStr "Local market conditions";
                  JStr "Economic indicators"]);
               ("prediction_date", JStr prediction_date)] |}).
Proof.
  unfold PropertyValuation.value_prediction. do 2 run_step.
  set (cv := randint_at w 0 400000 700000).
  apply returns_bind.
  eapply returns_mono.
  { apply (for_returns (λ done predictions w',
      w' = skip (S (length done)) w ∧
      predictions = (λ i, prediction cv i
          (uniform_at w (Z.to_nat i) (lit 0.002) (lit 0.008))) <$> done)).
    - done.
    - intros done i rest predictions w' Hrange [-> ->].
      apply range_split in Hrange. do 3 run_step.
      split.
      + by rewrite length_app, Nat.add_1_r.
      + rewrite fmap_app. f_equal. cbn [fmap list_fmap].
        replace (Z.to_nat i) with (S (length done)) by lia. done. }
  intros predictions w' [-> ->]. cbv beta.
  do 5 run_step. split; [done|]. eauto.
Qed.

Lemma predicted_values_of_predictions cv (g : Z → num F) (zs : list Z) :
  mapM (item "predicted_value") ((λ i, prediction cv i (g i)) <$> zs)
  = Some ((λ i, JNum (round2 (I cv * (I 1 + g i) ** i)%py)) <$> zs).
Proof.
  induction zs as [|z zs IH]; [done|].
  cbn [fmap list_fmap mapM] in *. rewrite IH. done.
Qed.

Lemma value_prediction_run property_id (w : World F) :
  let current_value := randint_at w 0 400000 700000 in
  let growth_rate i := uniform_at w (Z.to_nat i) (lit 0.002) (lit 0.008) in
  ∃ r w',
    PropertyValuation.value_prediction property_id w = Ok (r, w') ∧
    w' = skip 15 w ∧
    statusCode r = 200 ∧
    item "property_id" (body r) = Some property_id ∧
    item "current_value" (body r) = Some (JNum (I current_value)) ∧
    predicted_values r =
      Some ((λ i, JNum (round2 (I current_value * (I 1 + growth_rate i) ** i)%py))
            <$> range 1 13).
Proof.
  intros cv g.
  destruct (proj1 (returns_Ok _ _ _) (value_prediction_spec property_id w))
    as (r & w' & Hrun & Hw' & annual & date & ->).
  eexists _, w'. split_and!; [done..|].
  unfold predicted_values. cbn [body item assoc]. cbn [bool_decide].
  apply predicted_values_of_predictions.
Qed.

Lemma aggregate_portfolio_data_spec user_id (w : World F) :
  returns (DataAggregation.aggregate_portfolio_data user_id) w (λ r _,
    ∃ (properties : list DataAggregation.Property) average_occupancy roi aggregation_date,
      DataAggregation.property_id <$> properties = range 1 13 ∧
      Forall (λ p, in_range 300000 800000 (DataAggregation.current_value p) ∧
                   in_range 2000 5000 (DataAggregation.monthly_income p) ∧
                   in_range 500 1500 (DataAggregation.monthly_expenses p)) properties ∧
      let total_value := Zsum (DataAggregation.current_value <$> properties) in
      let total_income := Zsum (DataAggregation.monthly_income <$> properties) in
      let total_expenses := Zsum (DataAggregation.monthly_expenses <$> properties) in
      r = {| statusCode := 200;
             body := JDict [
               ("user_id", user_id);
               ("total_properties", JNum (I 12));
               ("total_value", JNum (I total_value));
               ("total_monthly_income", JNum (I total_income));
               ("total_monthly_expenses", JNum (I total_expenses));
               ("net_monthly_income", JNum (I (total_income - total_expenses)));
               ("average_occupancy", JNum average_occupancy);
               ("portfolio_roi", JNum (roi * I 100)%py);
               ("properties", JList (DataAggregation.property_json <$> properties));
               ("aggregation_date", JStr aggregation_date)] |}).
Proof.
  unfold DataAggregation.aggregate_portfolio_data. apply returns_bind.
  eapply returns_mono.
  { apply (for_returns (λ done '(properties, total_value, total_income, total_expenses) _,
      DataAggregation.property_id <$> properties = done ∧
      Forall (λ p, in_range 300000 800000 (DataAggregation.current_value p) ∧
                   in_range 2000 5000 (DataAggregation.monthly_income p) ∧
                   in_range 500 1500 (DataAggregation.monthly_expenses p)) properties ∧
      total_value = Zsum (DataAggregation.current_value <$> properties) ∧
      total_income = Zsum (DataAggregation.monthly_income <$> properties) ∧
      total_expenses = Zsum (DataAggregation.monthly_expenses <$> properties))).
    - done.
    - intros done i rest [[[properties tv] ti] te] w' _ (Hids & Hrng & -> & -> & ->).
      cbv beta iota. run.
      cbv iota. rewrite !fmap_app, Hids. cbn [fmap list_fmap]. rewrite !Zsum_snoc.
      split_and!; try done.
      apply Forall_app. split; [done|]. apply Forall_singleton.
      split_and!; by apply randint_val_bounds. }
  intros [[[properties tv] ti] te] w' (Hids & Hrng & -> & -> & ->). cbv beta iota.
  assert (length properties = 12%nat) as Hlen.
  { by rewrite <- (length_fmap DataAggregation.property_id), Hids, length_range. }
  do 2 run_step.
  { unfold len. rewrite Hlen. reflexivity. }
  do 2 run_step.
  { cbn. apply Z.eqb_neq.
    assert (Forall (λ x, 300000 ≤ x) (DataAggregation.current_value <$> properties))
      as Hlow.
    { apply Forall_fmap. eapply Forall_impl; [exact Hrng|]. by intros p [[? ?] _]. }
    apply Zsum_lower_bound in Hlow. rewrite length_fmap, Hlen in Hlow. lia. }
  run. eexists properties, _, _, _. split_and!; try done.
  unfold len. by rewrite Hlen.
Qed.

Lemma aggregate_performance_metrics_spec user_id (w : World F) :
  returns (DataAggregation.aggregate_performance_metrics user_id) w (λ r _,
    ∃ rest, r = {| statusCode := 200; body := JDict (("user_id", user_id) :: rest) |}).
Proof.
  unfold DataAggregation.aggregate_performance_metrics. do 12 run_step.
  apply returns_bind.
  eapply returns_mono.
  { apply (for_returns (λ _ _ _, True)); [done|].
    intros. run. done. }
  intros monthly_performance w' _. cbv beta. run. eauto.
Qed.

Lemma aggregate_cashflow_data_spec user_id (w : World F) :
  returns (DataAggregation.aggregate_cashflow_data user_id) w (λ r _,
    ∃ (cashflow_items : list DataAggregation.CashflowItem)
      average_monthly_cashflow aggregation_date,
      length cashflow_items = 6%nat ∧
      (∀ m c, cashflow_items !! m = Some c → cashflow_month m c) ∧
      r = {| statusCode := 200;
             body := JDict [
               ("user_id", user_id);
               ("cashflow_summary",
                  JList (DataAggregation.cashflow_json <$> cashflow_items));
               ("total_income_ytd",
                  JNum (I (Zsum ((λ c, DataAggregation.rental (DataAggregation.income c)
                                       + DataAggregation.other (DataAggregation.income c))
                                 <$> cashflow_items))));
               ("total_expenses_ytd",
                  JNum (I (Zsum ((λ c, expenses_total (DataAggregation.expenses c))
                                 <$> cashflow_items))));
               ("net_cashflow_ytd",
                  JNum (I (Zsum (DataAggregation.net_cashflow <$> cashflow_items))));
               ("average_monthly_cashflow", JNum average_monthly_cashflow);
               ("aggregation_date", JStr aggregation_date)] |}).
Proof.
  unfold DataAggregation.aggregate_cashflow_data. apply returns_bind.
  eapply returns_mono.
  { apply (for_returns (λ done (cashflow_items : list DataAggregation.CashflowItem) _,
      length cashflow_items = length done ∧
      ∀ m c, cashflow_items !! m = Some c → cashflow_month m c)).
    - split; [done|]. by intros m c.
    - intros done i rest cashflow_items w' Hrange [Hlen Hitems].
      apply range_split in Hrange. run.
      split; [by rewrite !length_app, Hlen|].
      intros m c Hm. apply lookup_app_Some in Hm as [Hm|[Hge Hm]]; [by apply Hitems|].
      apply list_lookup_singleton_Some in Hm as [Hm <-].
      assert (m = length done) as -> by lia.
      unfold cashflow_month, expenses_total, in_range. cbn.
      split_and!; try lia; by apply randint_val_bounds. }
  intros cashflow_items w' [Hlen Hitems]. cbv beta.
  rewrite length_range in Hlen. rewrite !sum_ints_with.
  do 2 run_step.
  { unfold len. rewrite Hlen. reflexivity. }
  run. eexists cashflow_items, _, _. done.
Qed.

Lemma aggregate_maintenance_data_spec user_id (w : World F) :
  returns (DataAggregation.aggregate_maintenance_data user_id) w (λ r _,
    ∃ (maintenance_items : list DataAggregation.MaintenanceItem) avg_cost
      upcoming_maintenance aggregation_date,
      length maintenance_items = 20%nat ∧
      Forall (λ m, DataAggregation.m_type m ∈ maintenance_types) maintenance_items ∧
      r = {| statusCode := 200;
             body := JDict [
               ("user_id", user_id);
               ("maintenance_items",
                  JList (DataAggregation.maintenance_json <$> maintenance_items));
               ("total_maintenance_cost",
                  JNum (I (Zsum (DataAggregation.m_cost <$> maintenance_items))));
               ("average_cost_per_item", JNum avg_cost);
               ("maintenance_by_type", JDict [
                  ("Routine", JNum (DataAggregation.count_type "Routine" maintenance_items));
                  ("Emergency",
                     JNum (DataAggregation.count_type "Emergency" maintenance_items));
                  ("Preventive",
                     JNum (DataAggregation.count_type "Preventive" maintenance_items));
                  ("Upgrade", JNum (DataAggregation.count_type "Upgrade" maintenance_items))]);
               ("upcoming_maintenance", JNum (I upcoming_maintenance));
               ("aggregation_date", JStr aggregation_date)] |}).
Proof.
  unfold DataAggregation.aggregate_maintenance_data. apply returns_bind.
  eapply returns_mono.
  { apply (for_returns (λ done (maintenance_items : list DataAggregation.MaintenanceItem) _,
      length maintenance_items = length done ∧
      Forall (λ m, DataAggregation.m_type m ∈ maintenance_types) maintenance_items)).
    - done.
    - intros done i rest maintenance_items w' _ [Hlen Htypes]. run.
      split; [by rewrite !length_app, Hlen|].
      apply Forall_app. split; [done|]. by apply Forall_singleton. }
  intros maintenance_items w' [Hlen Htypes]. cbv beta.
  rewrite length_range in Hlen. rewrite !sum_ints_with.
  do 2 run_step.
  { unfold len. rewrite Hlen. reflexivity. }
  run. eexists maintenance_items, _, _, _. done.
Qed.

(** Every record has one of the four types, so the four filters partition
    the list. *)
Lemma count_types_total (maintenance_items : list DataAggregation.MaintenanceItem) :
  Forall (λ m, DataAggregation.m_type m ∈ maintenance_types) maintenance_items →
  (length (filter (λ m, DataAggregation.m_type m = "Routine") maintenance_items)
   + length (filter (λ m, DataAggregation.m_type m = "Emergency") maintenance_items)
   + length (filter (λ m, DataAggregation.m_type m = "Preventive") maintenance_items)
   + length (filter (λ m, DataAggregation.m_type m = "Upgrade") maintenance_items))%nat
  = length maintenance_items.
Proof.
  induction 1 as [|m ms Hm _ IH]; [done|].
  rewrite !filter_cons. unfold maintenance_types in Hm.
  destruct m as [? ? ty ? ? ? ? ?]. cbn [DataAggregation.m_type] in *.
  set_unfold in Hm.
  destruct Hm as [Hm | [Hm | [Hm | [Hm | []]]]]; subst ty;
    repeat case_decide; try done; cbn [length]; lia.
Qed.

Lemma count_type_absent t (maintenance_items : list DataAggregation.MaintenanceItem) :
  t ∉ DataAggregation.m_type <$> maintenance_items →
  DataAggregation.count_type t maintenance_items = (I 0 : num F).
Proof.
  intros Ht. unfold DataAggregation.count_type, len.
  induction maintenance_items as [|m ms IH]; [done|].
  rewrite fmap_cons, not_elem_of_cons in Ht. destruct Ht as [Hm Hms].
  rewrite filter_cons. case_decide; [done|]. by apply IH.
Qed.

(** *** The dispatchers *)

Lemma recognised_A (v : json F) :
  recognised selectors_A v ↔
  v = JStr "portfolio" ∨ v = JStr "performance" ∨ v = JStr "cashflow"
  ∨ v = JStr "maintenance".
Proof.
  unfold recognised, selectors_A. cbn [fmap list_fmap].
  rewrite !elem_of_cons, elem_of_nil. tauto.
Qed.

Lemma recognised_B (v : json F) :
  recognised selectors_B v ↔
  v = JStr "valuation" ∨ v = JStr "market_analysis" ∨ v = JStr "prediction".
Proof.
  unfold recognised, selectors_B. cbn [fmap list_fmap].
  rewrite !elem_of_cons, elem_of_nil. tauto.
Qed.

Lemma handler_A_unrecognised event context (w : World F) :
  ¬ recognised selectors_A (get event "type" (JStr "portfolio")) →
  DataAggregation.lambda_handler event context w
  = Ok (error_envelope "Invalid aggregation type", w).
Proof.
  rewrite recognised_A. intros Hsel. unfold DataAggregation.lambda_handler.
  cbv zeta.
  destruct (eq_str _ "portfolio") eqn:E1; [apply eq_str_true in E1; tauto|].
  destruct (eq_str _ "performance") eqn:E2; [apply eq_str_true in E2; tauto|].
  destruct (eq_str _ "cashflow") eqn:E3; [apply eq_str_true in E3; tauto|].
  destruct (eq_str _ "maintenance") eqn:E4; [apply eq_str_true in E4; tauto|].
  reflexivity.
Qed.

Lemma handler_A_recognised event context (w : World F) :
  recognised selectors_A (get event "type" (JStr "portfolio")) →
  ∃ r w',
    DataAggregation.lambda_handler event context w = Ok (r, w') ∧
    statusCode r = 200 ∧
    item "user_id" (body r) = Some (get event "user_id" (JStr "1")).
Proof.
  rewrite recognised_A. intros Hsel. unfold DataAggregation.lambda_handler.
  cbv zeta. destruct Hsel as [-> | [-> | [-> | ->]]]; cbn [eq_str bool_decide].
  - destruct (proj1 (returns_Ok _ _ _)
      (aggregate_portfolio_data_spec (get event "user_id" (JStr "1")) w))
      as (r & w' & Hrun & ? & ? & ? & ? & _ & _ & ->).
    by eexists _, w'.
  - destruct (proj1 (returns_Ok _ _ _)
      (aggregate_performance_metrics_spec (get event "user_id" (JStr "1")) w))
      as (r & w' & Hrun & ? & ->).
    by eexists _, w'.
  - destruct (proj1 (returns_Ok _ _ _)
      (aggregate_cashflow_data_spec (get event "user_id" (JStr "1")) w))
      as (r & w' & Hrun & ? & ? & ? & _ & _ & ->).
    by eexists _, w'.
  - destruct (proj1 (returns_Ok _ _ _)
      (aggregate_maintenance_data_spec (get event "user_id" (JStr "1")) w))
      as (r & w' & Hrun & ? & ? & ? & ? & _ & _ & ->).
    by eexists _, w'.
Qed.

Lemma handler_B_unrecognised event context (w : World F) :
  ¬ recognised selectors_B (get event "analysis_type" (JStr "valuation")) →
  PropertyValuation.lambda_handler event context w
  = Ok (error_envelope "Invalid analysis type", w).
Proof.
  rewrite recognised_B. intros Hsel. unfold PropertyValuation.lambda_handler.
  cbv zeta.
  destruct (eq_str _ "valuation") eqn:E1; [apply eq_str_true in E1; tauto|].
  destruct (eq_str _ "market_analysis") eqn:E2; [apply eq_str_true in E2; tauto|].
  destruct (eq_str _ "prediction") eqn:E3; [apply eq_str_true in E3; tauto|].
  reflexivity.
Qed.

Lemma handler_B_recognised event context (w : World F) :
  recognised selectors_B (get event "analysis_type" (JStr "valuation")) →
  ∃ r w',
    PropertyValuation.lambda_handler event context w = Ok (r, w') ∧
    statusCode r = 200 ∧
    item "property_id" (body r) = Some (get event "property_id" JNull).
Proof.
  rewrite recognised_B. intros Hsel. unfold PropertyValuation.lambda_handler.
  cbv zeta. destruct Hsel as [-> | [-> | ->]]; cbn [eq_str bool_decide].
  - destruct (proj1 (returns_Ok _ _ _)
      (property_valuation_spec (get event "property_id" JNull) w))
      as (r & w' & Hrun & ? & ? & ? & _ & ->).
    by eexists _, w'.
  - destruct (proj1 (returns_Ok _ _ _)
      (market_analysis_spec (get event "property_id" JNull) w))
      as (r & w' & Hrun & ? & ->).
    by eexists _, w'.
  - destruct (value_prediction_run (get event "property_id" JNull) w)
      as (r & w' & Hrun & _ & ? & ? & _).
    by eexists r, w'.
Qed.
End Operations.

(** ** Exact arithmetic is monotone *)

Lemma Qpower_base_mono (x y : Q) (k : nat) :
  (0 <= x)%Q → (x <= y)%Q → (x ^ Z.of_nat k <= y ^ Z.of_nat k)%Q.
Proof.
  intros Hx Hxy. induction k as [|k IH].
  - change (1 <= 1)%Q. lra.
  - rewrite Nat2Z.inj_succ, <- Z.add_1_r.
    rewrite !Qpower_plus' by lia.
    assert (0 <= x ^ Z.of_nat k)%Q by (apply Qpower_0_le; lra).
    change (x ^ 1)%Q with x. change (y ^ 1)%Q with y. nra.
Qed.

Lemma round_half_even_mono (x y : Q) :
  (x <= y)%Q → round_half_even x ≤ round_half_even y.
Proof.
  intros Hxy. unfold round_half_even.
  pose proof (Qfloor_resp_le _ _ Hxy) as Hfl.
  pose proof (Qfloor_le x) as Hx1. pose proof (Qlt_floor x) as Hx2.
  pose proof (Qfloor_le y) as Hy1. pose proof (Qlt_floor y) as Hy2.
  destruct (Z.eq_dec (Qfloor x) (Qfloor y)) as [Heq|Hne].
  - rewrite <- Heq in *.
    destruct (Qcompare_spec (x - inject_Z (Qfloor x)) (1 # 2)) as [Hcx|Hcx|Hcx];
    destruct (Qcompare_spec (y - inject_Z (Qfloor x)) (1 # 2)) as [Hcy|Hcy|Hcy];
      try destruct (Z.even (Qfloor x)); try lia; lra.
  - assert (Qfloor x + 1 ≤ Qfloor y) as Hlt by lia.
    destruct (x - inject_Z (Qfloor x) ?= 1 # 2)%Q, (y - inject_Z (Qfloor y) ?= 1 # 2)%Q;
      try destruct (Z.even (Qfloor x)); try destruct (Z.even (Qfloor y)); lia.
Qed.

Lemma round_half_even_close (z : Q) :
  (z - (1 # 2) <= inject_Z (round_half_even z) <= z + (1 # 2))%Q.
Proof.
  unfold round_half_even.
  pose proof (Qfloor_le z) as Hlo. pose proof (Qlt_floor z) as Hhi.
  rewrite inject_Z_plus in Hhi. change (inject_Z 1) with 1%Q in Hhi.
  destruct (Qcompare_spec (z - inject_Z (Qfloor z)) (1 # 2)) as [Hc|Hc|Hc];
    try destruct (Z.even (Qfloor z));
    rewrite ?inject_Z_plus; change (inject_Z 1) with 1%Q; lra.
Qed.

Lemma Qround2_mono (x y : Q) : (x <= y)%Q → (Qround2 x <= Qround2 y)%Q.
Proof.
  intros Hxy. unfold Qround2. rewrite !Qred_correct.
  assert (x * 100 <= y * 100)%Q as H100 by lra.
  apply round_half_even_mono in H100. rewrite Zle_Qle in H100.
  unfold Qdiv. apply Qmult_le_compat_r; [done|]. by vm_compute.
Qed.

(** [round(x, 2)] is within half a cent of [x]. *)
Lemma Qround2_close (y : Q) :
  (y - (1 # 200) <= Qround2 y <= y + (1 # 200))%Q.
Proof.
  unfold Qround2. rewrite Qred_correct.
  pose proof (round_half_even_close (y * 100)) as Hz.
  unfold Qdiv. change (/ 100)%Q with (1 # 100)%Q. lra.
Qed.

Lemma Qfloat_of_int_mono (m n : Z) : m ≤ n → (inject_Z m <= inject_Z n)%Q.
Proof. intros Hmn. by rewrite <- Zle_Qle. Qed.

Lemma Qfloat_add_nonneg (z x : Q) : (inject_Z 0 <= x)%Q → (z <= Qred (z + x))%Q.
Proof. intros Hx. rewrite Qred_correct. unfold inject_Z in Hx. lra. Qed.

Lemma Qfloat_add_mono_r (z x y : Q) : (x <= y)%Q → (Qred (z + x) <= Qred (z + y))%Q.
Proof. intros Hxy. rewrite !Qred_correct. lra. Qed.

Lemma Qfloat_mul_mono_r (z x y : Q) :
  (inject_Z 0 <= z)%Q → (x <= y)%Q → (Qred (z * x) <= Qred (z * y))%Q.
Proof. intros Hz Hxy. rewrite !Qred_correct. unfold inject_Z in Hz. nra. Qed.

Lemma Qfloat_pow_mono (x y : Q) (i j : Z) :
  (inject_Z 1 <= x)%Q → (x <= y)%Q → 1 ≤ i ≤ j → (Qred (x ^ i) <= Qred (y ^ j))%Q.
Proof.
  intros Hx Hxy Hij. rewrite !Qred_correct. unfold inject_Z in Hx.
  apply (Qle_trans _ (x ^ j)%Q).
  - apply Qpower_le_compat_l; [lia|done].
  - rewrite <- (Z2Nat.id j) by lia. apply Qpower_base_mono; [lra|done].
Qed.

#[global] Instance Qfloat_order : PyFloatOrder Q := {|
  fle := Qle;
  float_of_int_mono := Qfloat_of_int_mono;
  fadd_nonneg := Qfloat_add_nonneg;
  fadd_mono_r := Qfloat_add_mono_r;
  fmul_mono_r := Qfloat_mul_mono_r;
  fpow_mono := Qfloat_pow_mono;
  fround2_mono := Qround2_mono
|}.

Lemma Q_compound_value (cv i : Z) (x : Q) :
  (I cv * (I 1 + Fl x) ** i)%py = Fl (Qred (inject_Z cv * Qred (Qred (1 + x) ^ i))).
Proof. reflexivity. Qed.

Lemma Q_predicted_value (cv i : Z) (x : Q) :
  round2 (I cv * (I 1 + Fl x) ** i)%py
  = Fl (Qround2 (Qred (inject_Z cv * Qred (Qred (1 + x) ^ i)))).
Proof. reflexivity. Qed.

Section Monotone.
Context {F : Type} `{PyFloatOrder F}.

End Monotone.

(** * The claims *)

(** ** Value prediction: the growth rate *)

Section PredictionClaims.
Context {F : Type} `{PyFloat F}.

(** C1 (amended): the growth rate is sampled afresh in each of the twelve
    iterations.  The call makes fifteen readings of the generator and the
    clock; the i-th predicted value is
    round(current_value * (1 + g_i) ** i, 2), where g_i is the rate sampled
    in iteration i (reading number i of the call). *)
Theorem value_prediction_rate_per_month property_id (w : World F) :
  let current_value := randint_at w 0 400000 700000 in
  let growth_rate i := uniform_at w (Z.to_nat i) (lit 0.002) (lit 0.008) in
  ∃ r w',
    PropertyValuation.value_prediction property_id w = Ok (r, w') ∧
    w' = skip 15 w ∧
    item "current_value" (body r) = Some (JNum (I current_value)) ∧
    predicted_values r =
      Some ((λ i, JNum (round2 (I current_value * (I 1 + growth_rate i) ** i)%py))
            <$> range 1 13).
Proof.
  intros cv g.
  destruct (value_prediction_run property_id w)
    as (r & w' & Hrun & Hw' & _ & _ & Hcv & Hvalues).
  by exists r, w'.
Qed.
End PredictionClaims.

(** C1 (counterexample): with the rate 0.005 sampled in month 1 and 0.002 in
    the later months, the series starts 402000.00, 401601.60: no single
    rate yields it, whether the compound values are rounded to two decimals
    or not. *)
Lemma value_prediction_rate_is_not_shared :
  ∃ r w' values,
    PropertyValuation.value_prediction JNull w_rates = Ok (r, w') ∧
    item "current_value" (body r) = Some (JNum (I 400000)) ∧
    predicted_values r = Some values ∧
    ¬ compounded_at_one_rate id 400000 values ∧
    ¬ compounded_at_one_rate round2 400000 values.
Proof.
  eexists _, _, _. split; [vm_compute; reflexivity|].
  split; [reflexivity|]. split; [vm_compute; reflexivity|].
  split.
  - intros [g Hg]. change (range 1 13) with [1; 2; 3; 4; 5; 6; 7; 8; 9; 10; 11; 12] in Hg.
    cbn [fmap list_fmap] in Hg. unfold id in Hg.
    destruct g as [n|x]; [discriminate Hg|].
    rewrite !Q_compound_value in Hg.
    injection Hg as H1 H2 _ _ _ _ _ _ _ _ _ _.
    assert (400000 * (1 + x) == 402000)%Q as E1.
    { rewrite H1, !Qred_correct. reflexivity. }
    assert (400000 * ((1 + x) * (1 + x)) == 2008008 # 5)%Q as E2.
    { rewrite H2, !Qred_correct. reflexivity. }
    nra.
  - intros [g Hg]. change (range 1 13) with [1; 2; 3; 4; 5; 6; 7; 8; 9; 10; 11; 12] in Hg.
    cbn [fmap list_fmap] in Hg.
    destruct g as [n|x]; [discriminate Hg|].
    rewrite !Q_predicted_value in Hg.
    injection Hg as H1 H2 _ _ _ _ _ _ _ _ _ _.
    match type of H1 with _ = Qround2 ?y => pose proof (Qround2_close y) as C1 end.
    match type of H2 with _ = Qround2 ?y => pose proof (Qround2_close y) as C2 end.
    rewrite <- H1 in C1. rewrite <- H2 in C2.
    rewrite !Qred_correct in C1, C2.
    change (inject_Z 400000) with 400000%Q in C1, C2.
    nra.
Qed.


Section MonotoneClaim.
Context {F : Type} `{PyFloatOrder F}.

End MonotoneClaim.


(** ** Property valuation *)

Section ValuationClaims.
Context {F : Type} `{PyFloat F}.

(** C8: the returned current_value is the product
    base_value * market_adjustment * location_factor * condition_factor
    rounded to two decimals, and value_range holds the unrounded product
    times 0.9 and times 1.1, each rounded to two decimals. *)
Theorem property_valuation_value_and_range property_id (w : World F) :
  let base_value := randint_at w 0 300000 800000 in
  let market_adjustment := uniform_at w 1 (lit 0.95) (lit 1.15) in
  let location_factor := uniform_at w 2 (lit 0.9) (lit 1.2) in
  let condition_factor := uniform_at w 3 (lit 0.85) (lit 1.1) in
  let product :=
    (I base_value * market_adjustment * location_factor * condition_factor)%py in
  ∃ r w',
    PropertyValuation.property_valuation property_id w = Ok (r, w') ∧
    item "factors" (body r) = Some (JDict [
      ("market_adjustment", JNum market_adjustment);
      ("location_factor", JNum location_factor);
      ("condition_factor", JNum condition_factor)]) ∧
    item "current_value" (body r) = Some (JNum (round2 product)) ∧
    item "value_range" (body r) = Some (JDict [
      ("low", JNum (round2 (product * lit 0.9)%py));
      ("high", JNum (round2 (product * lit 1.1)%py))]).
Proof.
  intros.
  destruct (proj1 (returns_Ok _ _ _) (property_valuation_spec property_id w))
    as (r & w' & Hrun & conf & date & comps & _ & ->).
  eexists _, w'. split; [exact Hrun|]. split_and!; reflexivity.
Qed.
End ValuationClaims.

(** ** Cash flow *)

(** In every month of every run the net cash flow is the rental income
    minus the six expenses; the [other] income, sampled afterwards, is not
    part of it. *)
Lemma cashflow_net_is_rental_minus_expenses {F} `{PyFloat F} user_id (w : World F) :
  ∃ r w' (cashflow_items : list DataAggregation.CashflowItem),
    DataAggregation.aggregate_cashflow_data user_id w = Ok (r, w') ∧
    item "cashflow_summary" (body r)
      = Some (JList (DataAggregation.cashflow_json <$> cashflow_items)) ∧
    length cashflow_items = 6%nat ∧
    Forall (λ c, DataAggregation.net_cashflow c
                 = DataAggregation.rental (DataAggregation.income c)
                   - expenses_total (DataAggregation.expenses c)) cashflow_items.
Proof.
  destruct (proj1 (returns_Ok _ _ _) (aggregate_cashflow_data_spec user_id w))
    as (r & w' & Hrun & items & avg & date & Hlen & Hitems & ->).
  eexists _, w', items. split; [exact Hrun|]. split; [reflexivity|]. split; [done|].
  apply Forall_lookup. intros m c Hm. by destruct (Hitems m c Hm) as (? & _).
Qed.

(** C2 (the code at the failing input): the first month has rental 40000,
    other 1 and expenses 30500; its net_cashflow is 9500, not
    40000 + 1 - 30500 = 9501.  The year-to-date income of the same response
    does count the other income: 240001 - 183000 is not the reported net
    57000. *)
Lemma cashflow_net_omits_other_income :
  ∃ r w' month0 rest,
    DataAggregation.aggregate_cashflow_data (JStr "1") w_other = Ok (r, w') ∧
    item "cashflow_summary" (body r) = Some (JList (month0 :: rest)) ∧
    item "income" month0
      = Some (JDict [("rental", JNum (I 40000)); ("other", JNum (I 1))]) ∧
    item "expenses" month0
      = Some (JDict [("mortgage", JNum (I 20000)); ("maintenance", JNum (I 2000));
                     ("property_tax", JNum (I 3000)); ("insurance", JNum (I 1500));
                     ("utilities", JNum (I 1000)); ("management", JNum (I 3000))]) ∧
    item "net_cashflow" month0 = Some (JNum (I 9500)) ∧
    40000 + 1 - (20000 + 2000 + 3000 + 1500 + 1000 + 3000) = 9501 ∧
    item "total_income_ytd" (body r) = Some (JNum (I 240001)) ∧
    item "total_expenses_ytd" (body r) = Some (JNum (I 183000)) ∧
    item "net_cashflow_ytd" (body r) = Some (JNum (I 57000)).
Proof.
  eexists _, _, _, _. split; [vm_compute; reflexivity|].
  split_and!; reflexivity.
Qed.

(** C4: in every run, the cumulative_cashflow of month index m is that
    month's net_cashflow times (m + 1); it is not a running sum: when month
    0 nets 9500 and month 1 nets 9495, month 1 reports 18990, not 18995. *)
Theorem cashflow_cumulative_is_scaled_net :
  (∀ (F : Type) (HF : PyFloat F) (user_id : json F) (w : World F),
     ∃ r w' (cashflow_items : list DataAggregation.CashflowItem),
       DataAggregation.aggregate_cashflow_data user_id w = Ok (r, w') ∧
       item "cashflow_summary" (body r)
         = Some (JList (DataAggregation.cashflow_json <$> cashflow_items)) ∧
       length cashflow_items = 6%nat ∧
       ∀ (m : nat) c, cashflow_items !! m = Some c →
         DataAggregation.cumulative_cashflow c
         = DataAggregation.net_cashflow c * (Z.of_nat m + 1)) ∧
  (∃ r w' month0 month1 rest,
     DataAggregation.aggregate_cashflow_data (JStr "1") w_months = Ok (r, w') ∧
     item "cashflow_summary" (body r) = Some (JList (month0 :: month1 :: rest)) ∧
     item "net_cashflow" month0 = Some (JNum (I 9500)) ∧
     item "net_cashflow" month1 = Some (JNum (I 9495)) ∧
     item "cumulative_cashflow" month1 = Some (JNum (I (9495 * 2))) ∧
     9495 * 2 ≠ 9500 + 9495).
Proof.
  split.
  - intros F HF user_id w.
    destruct (proj1 (returns_Ok _ _ _) (aggregate_cashflow_data_spec user_id w))
      as (r & w' & Hrun & items & avg & date & Hlen & Hitems & ->).
    eexists _, w', items. split; [exact Hrun|]. split; [reflexivity|]. split; [done|].
    intros m c Hm. by destruct (Hitems m c Hm) as (_ & ? & _).
  - eexists _, _, _, _, _. split; [vm_compute; reflexivity|].
    split; [reflexivity|]. split_and!; try reflexivity. lia.
Qed.

(** ** Portfolio and maintenance *)

Section AggregationClaims.
Context {F : Type} `{PyFloat F}.

(** C5: for every outcome of the sampling, total_value, total_monthly_income
    and total_monthly_expenses are the sums of the corresponding field over
    the twelve generated property records, and net_monthly_income is
    total_monthly_income minus total_monthly_expenses. *)
Theorem portfolio_totals_are_sums user_id (w : World F) :
  ∃ r w' (properties : list DataAggregation.Property),
    DataAggregation.aggregate_portfolio_data user_id w = Ok (r, w') ∧
    length properties = 12%nat ∧
    item "properties" (body r)
      = Some (JList (DataAggregation.property_json <$> properties)) ∧
    item "total_value" (body r)
      = Some (JNum (I (Zsum (DataAggregation.current_value <$> properties)))) ∧
    item "total_monthly_income" (body r)
      = Some (JNum (I (Zsum (DataAggregation.monthly_income <$> properties)))) ∧
    item "total_monthly_expenses" (body r)
      = Some (JNum (I (Zsum (DataAggregation.monthly_expenses <$> properties)))) ∧
    item "net_monthly_income" (body r)
      = Some (JNum (I (Zsum (DataAggregation.monthly_income <$> properties)
                       - Zsum (DataAggregation.monthly_expenses <$> properties)))).
Proof.
  destruct (proj1 (returns_Ok _ _ _) (aggregate_portfolio_data_spec user_id w))
    as (r & w' & Hrun & properties & avg & roi & date & Hids & _ & ->).
  eexists _, w', properties. split; [exact Hrun|]. split.
  { by rewrite <- (length_fmap DataAggregation.property_id), Hids, length_range. }
  split_and!; reflexivity.
Qed.

(** C6: for every outcome of the sampling, maintenance_by_type has the four
    keys Routine, Emergency, Preventive and Upgrade, each holding the number
    of the twenty generated records of that type; the four counts sum to 20,
    and a type that no record has counts 0. *)
Theorem maintenance_type_counts_sum_to_20 user_id (w : World F) :
  ∃ r w' (maintenance_items : list DataAggregation.MaintenanceItem)
    routine emergency preventive upgrade,
    DataAggregation.aggregate_maintenance_data user_id w = Ok (r, w') ∧
    item "maintenance_items" (body r)
      = Some (JList (DataAggregation.maintenance_json <$> maintenance_items)) ∧
    length maintenance_items = 20%nat ∧
    item "maintenance_by_type" (body r) = Some (JDict [
      ("Routine", JNum (I routine));
      ("Emergency", JNum (I emergency));
      ("Preventive", JNum (I preventive));
      ("Upgrade", JNum (I upgrade))]) ∧
    (I routine : num F) = DataAggregation.count_type "Routine" maintenance_items ∧
    (I emergency : num F) = DataAggregation.count_type "Emergency" maintenance_items ∧
    (I preventive : num F) = DataAggregation.count_type "Preventive" maintenance_items ∧
    (I upgrade : num F) = DataAggregation.count_type "Upgrade" maintenance_items ∧
    routine + emergency + preventive + upgrade = 20 ∧
    (∀ t, t ∉ DataAggregation.m_type <$> maintenance_items →
          DataAggregation.count_type t maintenance_items = (I 0 : num F)).
Proof.
  destruct (proj1 (returns_Ok _ _ _) (aggregate_maintenance_data_spec user_id w))
    as (r & w' & Hrun & items & avg & upcoming & date & Hlen & Htypes & ->).
  eexists _, w', items, _, _, _, _. split; [exact Hrun|].
  split_and!; try reflexivity; try done.
  - apply count_types_total in Htypes. lia.
  - intros t Ht. by apply count_type_absent.
Qed.
End AggregationClaims.

(** ** The dispatchers *)

Section DispatchClaims.
Context {F : Type} `{PyFloat F}.

(** C7: a request whose selector is none of the recognised values gets
    status 400 and a body whose only field is an error string, with no
    reading of the generator or the clock (for entry point B the body is
    exactly {"error": "Invalid analysis type"}); a request with a
    recognised selector, or none, gets status 200. *)
Theorem dispatchers_status_codes event context (w : World F) :
  let selector_A := get event "type" (JStr "portfolio") in
  let selector_B := get event "analysis_type" (JStr "valuation") in
  (¬ recognised selectors_A selector_A →
     ∃ r message,
       DataAggregation.lambda_handler event context w = Ok (r, w) ∧
       statusCode r = 400 ∧ body r = JDict [("error", JStr message)]) ∧
  (recognised selectors_A selector_A →
     ∃ r w',
       DataAggregation.lambda_handler event context w = Ok (r, w') ∧
       statusCode r = 200) ∧
  (¬ recognised selectors_B selector_B →
     PropertyValuation.lambda_handler event context w
     = Ok ({| statusCode := 400;
              body := JDict [("error", JStr "Invalid analysis type")] |}, w)) ∧
  (recognised selectors_B selector_B →
     ∃ r w',
       PropertyValuation.lambda_handler event context w = Ok (r, w') ∧
       statusCode r = 200).
Proof.
  intros selector_A selector_B. split_and!.
  - intros Hsel. eexists _, _. split; [by apply handler_A_unrecognised|done].
  - intros Hsel. destruct (handler_A_recognised event context w Hsel)
      as (r & w' & Hrun & Hstatus & _). eauto.
  - intros Hsel. by apply handler_B_unrecognised.
  - intros Hsel. destruct (handler_B_recognised event context w Hsel)
      as (r & w' & Hrun & Hstatus & _). eauto.
Qed.

(** C9: on an unrecognised selector entry point A answers status 400 with
    the body {"error": "Invalid aggregation type"}; entry point B's envelope
    has the same status and the same single key and differs in the message
    only. *)
Theorem dispatcher_error_envelopes event_A event_B context (w : World F) :
  ¬ recognised selectors_A (get event_A "type" (JStr "portfolio")) →
  ¬ recognised selectors_B (get event_B "analysis_type" (JStr "valuation")) →
  ∃ r_A r_B,
    DataAggregation.lambda_handler event_A context w = Ok (r_A, w) ∧
    PropertyValuation.lambda_handler event_B context w = Ok (r_B, w) ∧
    statusCode r_A = 400 ∧
    body r_A = JDict [("error", JStr "Invalid aggregation type")] ∧
    r_A = error_envelope "Invalid aggregation type" ∧
    r_B = error_envelope "Invalid analysis type" ∧
    "Invalid aggregation type" ≠ "Invalid analysis type" ∧
    statusCode r_A = statusCode r_B ∧
    keys (body r_A) = keys (body r_B).
Proof.
  intros HA HB. eexists _, _.
  split; [by apply handler_A_unrecognised|].
  split; [by apply handler_B_unrecognised|].
  split_and!; done.
Qed.

(** C10: entry point B, called with a recognised analysis_type (or none)
    and no property_id, answers status 200 with property_id null in the
    body, for each of the three operations. *)
Theorem valuation_dispatcher_missing_property_id event context (w : World F) :
  event !! "property_id" = None →
  recognised selectors_B (get event "analysis_type" (JStr "valuation")) →
  ∃ r w',
    PropertyValuation.lambda_handler event context w = Ok (r, w') ∧
    statusCode r = 200 ∧
    item "property_id" (body r) = Some JNull.
Proof.
  intros Hid Hsel.
  destruct (handler_B_recognised event context w Hsel) as (r & w' & Hrun & Hstatus & Hpid).
  exists r, w'. split_and!; [done..|].
  rewrite Hpid. unfold get. by rewrite Hid.
Qed.
End DispatchClaims.

(** The request {"analysis_type": "bogus", "type": "bogus"} at both entry
    points. *)
Lemma dispatchers_status_codes_witness :
  (∃ r message,
     DataAggregation.lambda_handler bogus_event JNull w_rates = Ok (r, w_rates) ∧
     statusCode r = 400 ∧ body r = JDict [("error", JStr message)]) ∧
  PropertyValuation.lambda_handler bogus_event JNull w_rates
  = Ok ({| statusCode := 400;
           body := JDict [("error", JStr "Invalid analysis type")] |}, w_rates).
Proof.
  destruct (dispatchers_status_codes bogus_event JNull w_rates) as (HA & _ & HB & _).
  split.
  - apply HA. intros Hrec. apply recognised_A in Hrec. vm_compute in Hrec.
    destruct Hrec as [? | [? | [? | ?]]]; discriminate.
  - apply HB. intros Hrec. apply recognised_B in Hrec. vm_compute in Hrec.
    destruct Hrec as [? | [? | ?]]; discriminate.
Defined.

Lemma dispatcher_error_envelopes_witness :
  ∃ r_A r_B,
    DataAggregation.lambda_handler bogus_event JNull w_rates = Ok (r_A, w_rates) ∧
    PropertyValuation.lambda_handler bogus_event JNull w_rates = Ok (r_B, w_rates) ∧
    statusCode r_A = 400 ∧
    body r_A = JDict [("error", JStr "Invalid aggregation type")] ∧
    r_A = error_envelope "Invalid aggregation type" ∧
    r_B = error_envelope "Invalid analysis type" ∧
    "Invalid aggregation type" ≠ "Invalid analysis type" ∧
    statusCode r_A = statusCode r_B ∧
    keys (body r_A) = keys (body r_B).
Proof.
  apply (dispatcher_error_envelopes bogus_event bogus_event JNull w_rates).
  - intros Hrec. apply recognised_A in Hrec. vm_compute in Hrec.
    destruct Hrec as [? | [? | [? | ?]]]; discriminate.
  - intros Hrec. apply recognised_B in Hrec. vm_compute in Hrec.
    destruct Hrec as [? | [? | ?]]; discriminate.
Defined.

(** The request {"analysis_type": "prediction"}, which has no property_id. *)
Lemma valuation_dispatcher_missing_property_id_witness :
  ∃ r w',
    PropertyValuation.lambda_handler prediction_event JNull w_rates = Ok (r, w') ∧
    statusCode r = 200 ∧
    item "property_id" (body r) = Some JNull.
Proof.
  apply (valuation_dispatcher_missing_property_id prediction_event JNull w_rates).
  - vm_compute. reflexivity.
  - apply recognised_B. vm_compute. auto.
Defined.

(** * Further properties of the operations *)

(** ** Exact arithmetic satisfies the laws *)

Lemma Qfloat_fltb_true (x y : Q) :
  match (x ?= y)%Q with Lt => true | _ => false end = true → (x <= y)%Q.
Proof. destruct (Qcompare_spec x y); intros; try done. lra. Qed.

Lemma Qfloat_fltb_false (x y : Q) :
  match (x ?= y)%Q with Lt => true | _ => false end = false → (y <= x)%Q.
Proof. destruct (Qcompare_spec x y); intros; try done; lra. Qed.

Lemma Qfloat_lit_nonneg (q : Q) : (0 <= q)%Q → (inject_Z 0 <= Qred q)%Q.
Proof. intros Hq. rewrite Qred_correct. done. Qed.

Lemma Qfloat_sub_lit_nonneg (p q : Q) :
  (p <= q)%Q → (inject_Z 0 <= Qred (Qred q - Qred p))%Q.
Proof. intros Hpq. rewrite !Qred_correct. change (inject_Z 0) with 0%Q. lra. Qed.

Lemma Qfloat_sub_mono_r (z x y : Q) : (x <= y)%Q → (Qred (z - y) <= Qred (z - x))%Q.
Proof. intros Hxy. rewrite !Qred_correct. lra. Qed.

Lemma Qfloat_mul_mono_l (z x y : Q) :
  (inject_Z 0 <= z)%Q → (x <= y)%Q → (Qred (x * z) <= Qred (y * z))%Q.
Proof. intros Hz Hxy. rewrite !Qred_correct. change (inject_Z 0) with 0%Q in Hz. nra. Qed.

Lemma Qfloat_mul_nonneg (x y : Q) :
  (inject_Z 0 <= x)%Q → (inject_Z 0 <= y)%Q → (inject_Z 0 <= Qred (x * y))%Q.
Proof. intros Hx Hy. rewrite Qred_correct. change (inject_Z 0) with 0%Q in *. nra. Qed.

Lemma Qfloat_mul_lit_le (x q : Q) :
  (inject_Z 0 <= x)%Q → (0 <= q <= 1)%Q → (Qred (x * Qred q) <= x)%Q.
Proof. intros Hx Hq. rewrite !Qred_correct. change (inject_Z 0) with 0%Q in *. nra. Qed.

Lemma Qfloat_mul_lit_ge (x q : Q) :
  (inject_Z 0 <= x)%Q → (1 <= q)%Q → (x <= Qred (x * Qred q))%Q.
Proof. intros Hx Hq. rewrite !Qred_correct. change (inject_Z 0) with 0%Q in *. nra. Qed.

#[global] Instance Qfloat_laws : PyFloatLaws Q := {|
  fle_refl := Qle_refl;
  fle_trans := Qle_trans;
  fltb_true := Qfloat_fltb_true;
  fltb_false := Qfloat_fltb_false;
  float_lit_nonneg := Qfloat_lit_nonneg;
  fsub_lit_nonneg := Qfloat_sub_lit_nonneg;
  fsub_mono_r := Qfloat_sub_mono_r;
  fmul_mono_l := Qfloat_mul_mono_l;
  fmul_nonneg := Qfloat_mul_nonneg;
  fmul_lit_le := Qfloat_mul_lit_le;
  fmul_lit_ge := Qfloat_mul_lit_ge
|}.

Section Confidence.
Context {F : Type} `{PyFloatLaws F}.


End Confidence.

Section MoreRules.
Context {F : Type} `{PyFloat F}.

Lemma truediv_returns_quotient (a b : num F) (w : World F) (P : num F → World F → Prop) :
  num_is_zero b = false → P (quotient a b) w → returns (truediv a b) w P.
Proof.
  intros Hb HP. unfold returns, truediv. rewrite Hb. exact HP.
Qed.



Lemma value_prediction_exact property_id (w : World F) :
  returns (PropertyValuation.value_prediction property_id) w (λ r w',
    w' = skip 15 w ∧
    r = {| statusCode := 200;
           body := JDict [
             ("property_id", property_id);
             ("current_value", JNum (I (randint_at w 0 400000 700000)));
             ("predictions", JList (predictions_of w));
             ("annual_growth_rate", JNum (uniform_at w 13 (I 3) (I 8)));
             ("risk_factors", JList [
                JStr "Interest rate changes";
                JStr "Local market conditions";
                JStr "Economic indicators"]);
             ("prediction_date", JStr (isoformat (clock_src w (14 + ticks w))))] |}).
Proof.
  unfold PropertyValuation.value_prediction. do 2 run_step.
  set (cv := randint_at w 0 400000 700000).
  apply returns_bind.
  eapply returns_mono.
  { apply (for_returns (λ done predictions w',
      w' = skip (S (length done)) w ∧
      predictions = (λ i, prediction cv i
          (uniform_at w (Z.to_nat i) (lit 0.002) (lit 0.008))) <$> done)).
    - done.
    - intros done i rest predictions w' Hrange [-> ->].
      apply range_split in Hrange. do 3 run_step.
      split.
      + by rewrite length_app, Nat.add_1_r.
      + rewrite fmap_app. f_equal. cbn [fmap list_fmap].
        replace (Z.to_nat i) with (S (length done)) by lia. done. }
  intros predictions w' [-> ->]. cbv beta.
  do 5 run_step. done.
Qed.
End MoreRules.

Section PredictionExtras.
Context {F : Type} `{PyFloatLaws F}.

End PredictionExtras.

Section PredictionResponse.
Context {F : Type} `{PyFloat F}.

(** X2: the response of the prediction operation after its fifteen
    readings: a current value between 400000 and 700000, twelve entries
    with the keys month, predicted_value, confidence and the months 1..12 in
    order, the three fixed risk factors, and an annual_growth_rate that is a
    reading of its own (the fourteenth), not derived from the monthly
    rates. *)
Theorem value_prediction_response property_id (w : World F) :
  let current_value := randint_at w 0 400000 700000 in
  ∃ r predictions,
    PropertyValuation.value_prediction property_id w = Ok (r, skip 15 w) ∧
    in_range 400000 700000 current_value ∧
    body r = JDict [
      ("property_id", property_id);
      ("current_value", JNum (I current_value));
      ("predictions", JList predictions);
      ("annual_growth_rate", JNum (uniform_at w 13 (I 3) (I 8)));
      ("risk_factors", JList [
         JStr "Interest rate changes";
         JStr "Local market conditions";
         JStr "Economic indicators"]);
      ("prediction_date", JStr (isoformat (clock_src w (14 + ticks w))))] ∧
    mapM (item "month") predictions = Some ((λ i, JNum (I i)) <$> range 1 13) ∧
    keys <$> predictions
      = replicate 12 ["month"; "predicted_value"; "confidence"].
Proof.
  intros cv.
  destruct (proj1 (returns_Ok _ _ _) (value_prediction_exact property_id w))
    as (r & w' & Hrun & -> & ->).
  eexists _, _. split; [exact Hrun|]. split.
  { by apply randint_val_bounds. }
  split; [reflexivity|]. split; reflexivity.
Qed.
End PredictionResponse.

Section ValuationExtras.
Context {F : Type} `{PyFloat F}.




End ValuationExtras.

Section Bracket.
Context {F : Type} `{PyFloatLaws F}.


End Bracket.


Ltac run_exact_step :=
  lazymatch goal with
  | |- returns (truediv _ _) _ _ => apply truediv_returns_quotient
  | |- _ => run_step
  end; cbv beta zeta.

Section AggregationExtras.
Context {F : Type} `{PyFloat F}.

Lemma Zsum_upper_bound c xs :
  Forall (λ x, x ≤ c) xs → Zsum xs ≤ c * Z.of_nat (length xs).
Proof. unfold Zsum. induction 1; cbn [length foldr]; lia. Qed.

Lemma Zsum_bounds lo hi {A} (f : A → Z) (xs : list A) :
  Forall (λ x, in_range lo hi (f x)) xs →
  lo * Z.of_nat (length xs) ≤ Zsum (f <$> xs) ≤ hi * Z.of_nat (length xs).
Proof.
  intros Hall. rewrite <- (length_fmap f). split.
  - apply Zsum_lower_bound, Forall_fmap. eapply Forall_impl; [exact Hall|].
    by intros x [? ?].
  - apply Zsum_upper_bound, Forall_fmap. eapply Forall_impl; [exact Hall|].
    by intros x [? ?].
Qed.

(** X6: the portfolio always has the property ids 1..12 and
    total_properties 12; total_value lies in 3600000..9600000, the monthly
    income in 24000..60000, the monthly expenses in 6000..18000, and the net
    monthly income in 6000..54000: it is never negative. *)
Theorem portfolio_totals_bounds user_id (w : World F) :
  ∃ r w' (properties : list DataAggregation.Property) total_value income expenses,
    DataAggregation.aggregate_portfolio_data user_id w = Ok (r, w') ∧
    item "properties" (body r)
      = Some (JList (DataAggregation.property_json <$> properties)) ∧
    DataAggregation.property_id <$> properties = range 1 13 ∧
    item "total_properties" (body r) = Some (JNum (I 12)) ∧
    item "total_value" (body r) = Some (JNum (I total_value)) ∧
    item "total_monthly_income" (body r) = Some (JNum (I income)) ∧
    item "total_monthly_expenses" (body r) = Some (JNum (I expenses)) ∧
    item "net_monthly_income" (body r) = Some (JNum (I (income - expenses))) ∧
    in_range 3600000 9600000 total_value ∧
    in_range 24000 60000 income ∧
    in_range 6000 18000 expenses ∧
    in_range 6000 54000 (income - expenses).
Proof.
  destruct (proj1 (returns_Ok _ _ _) (aggregate_portfolio_data_spec user_id w))
    as (r & w' & Hrun & properties & avg & roi & date & Hids & Hrng & ->).
  assert (length properties = 12%nat) as Hlen.
  { by rewrite <- (length_fmap DataAggregation.property_id), Hids, length_range. }
  eexists _, w', properties, _, _, _. split; [exact Hrun|].
  do 7 (split; [reflexivity || done|]).
  assert (Forall (λ p, in_range 300000 800000 (DataAggregation.current_value p)) properties)
    as Hv by (eapply Forall_impl; [exact Hrng|]; by intros p (? & ? & ?)).
  assert (Forall (λ p, in_range 2000 5000 (DataAggregation.monthly_income p)) properties)
    as Hi by (eapply Forall_impl; [exact Hrng|]; by intros p (? & ? & ?)).
  assert (Forall (λ p, in_range 500 1500 (DataAggregation.monthly_expenses p)) properties)
    as He by (eapply Forall_impl; [exact Hrng|]; by intros p (? & ? & ?)).
  apply Zsum_bounds in Hv, Hi, He. rewrite Hlen in Hv, Hi, He.
  unfold in_range. lia.
Qed.
End AggregationExtras.

Section AggregationFull.
Context {F : Type} `{PyFloat F}.

Lemma aggregate_portfolio_data_ratios user_id (w : World F) :
  returns (DataAggregation.aggregate_portfolio_data user_id) w (λ r _,
    ∃ (properties : list DataAggregation.Property),
      length properties = 12%nat ∧
      item "properties" (body r)
        = Some (JList (DataAggregation.property_json <$> properties)) ∧
      let total_value := Zsum (DataAggregation.current_value <$> properties) in
      let net := Zsum (DataAggregation.monthly_income <$> properties)
                 - Zsum (DataAggregation.monthly_expenses <$> properties) in
      item "total_value" (body r) = Some (JNum (I total_value)) ∧
      item "net_monthly_income" (body r) = Some (JNum (I net)) ∧
      item "average_occupancy" (body r)
        = Some (JNum (quotient (sum (DataAggregation.occupancy_rate <$> properties))
                               (I 12))) ∧
      item "portfolio_roi" (body r)
        = Some (JNum (quotient (I (net * 12)) (I total_value) * I 100)%py)).
Proof.
  unfold DataAggregation.aggregate_portfolio_data. apply returns_bind.
  eapply returns_mono.
  { apply (for_returns (λ done '(properties, total_value, total_income, total_expenses) _,
      length properties = length done ∧
      Forall (λ p, 300000 ≤ DataAggregation.current_value p) properties ∧
      total_value = Zsum (DataAggregation.current_value <$> properties) ∧
      total_income = Zsum (DataAggregation.monthly_income <$> properties) ∧
      total_expenses = Zsum (DataAggregation.monthly_expenses <$> properties))).
    - done.
    - intros done i rest [[[properties tv] ti] te] w' _ (Hlen & Hrng & -> & -> & ->).
      cbv beta iota. run.
      cbv iota. rewrite !fmap_app. cbn [fmap list_fmap]. rewrite !Zsum_snoc.
      split_and!; try done.
      + by rewrite !length_app, Hlen.
      + apply Forall_app. split; [done|]. apply Forall_singleton.
        by apply randint_val_bounds. }
  intros [[[properties tv] ti] te] w' (Hlen & Hrng & -> & -> & ->). cbv beta iota.
  rewrite length_range in Hlen. change (Z.to_nat (13 - 1)) with 12%nat in Hlen.
  do 2 run_exact_step.
  { unfold len. rewrite Hlen. reflexivity. }
  do 2 run_exact_step.
  { cbn. apply Z.eqb_neq.
    apply Forall_fmap in Hrng. apply Zsum_lower_bound in Hrng.
    rewrite length_fmap, Hlen in Hrng. lia. }
  run. exists properties. split; [done|]. split; [reflexivity|].
  cbv zeta. split_and!; try reflexivity.
  unfold len. rewrite Hlen. reflexivity.
Qed.

(** X7: average_occupancy is the sum of the twelve occupancy rates
    divided by 12, and portfolio_roi is
    (net_monthly_income * 12 / total_value) * 100 of the reported totals;
    neither division can fail. *)
Theorem portfolio_ratios user_id (w : World F) :
  ∃ r w' (properties : list DataAggregation.Property),
    DataAggregation.aggregate_portfolio_data user_id w = Ok (r, w') ∧
    length properties = 12%nat ∧
    item "properties" (body r)
      = Some (JList (DataAggregation.property_json <$> properties)) ∧
    item "average_occupancy" (body r)
      = Some (JNum (quotient (sum (DataAggregation.occupancy_rate <$> properties))
                             (I 12))) ∧
    item "portfolio_roi" (body r)
      = Some (JNum (quotient
                      (I ((Zsum (DataAggregation.monthly_income <$> properties)
                           - Zsum (DataAggregation.monthly_expenses <$> properties)) * 12))
                      (I (Zsum (DataAggregation.current_value <$> properties)))
                    * I 100)%py).
Proof.
  destruct (proj1 (returns_Ok _ _ _) (aggregate_portfolio_data_ratios user_id w))
    as (r & w' & Hrun & properties & Hlen & Hprops & _ & _ & Havg & Hroi).
  by exists r, w', properties.
Qed.
End AggregationFull.

Section CashflowExtras.
Context {F : Type} `{PyFloat F}.

Lemma aggregate_cashflow_data_full user_id (w : World F) :
  returns (DataAggregation.aggregate_cashflow_data user_id) w (λ r _,
    ∃ (cashflow_items : list DataAggregation.CashflowItem) aggregation_date,
      length cashflow_items = 6%nat ∧
      (∀ m c, cashflow_items !! m = Some c → cashflow_month m c ∧ cashflow_ranges c) ∧
      r = {| statusCode := 200;
             body := JDict [
               ("user_id", user_id);
               ("cashflow_summary",
                  JList (DataAggregation.cashflow_json <$> cashflow_items));
               ("total_income_ytd",
                  JNum (I (Zsum ((λ c, DataAggregation.rental (DataAggregation.income c)
                                       + DataAggregation.other (DataAggregation.income c))
                                 <$> cashflow_items))));
               ("total_expenses_ytd",
                  JNum (I (Zsum ((λ c, expenses_total (DataAggregation.expenses c))
                                 <$> cashflow_items))));
               ("net_cashflow_ytd",
                  JNum (I (Zsum (DataAggregation.net_cashflow <$> cashflow_items))));
               ("average_monthly_cashflow",
                  JNum (quotient
                          (I (Zsum (DataAggregation.net_cashflow <$> cashflow_items)))
                          (I 6)));
               ("aggregation_date", JStr aggregation_date)] |}).
Proof.
  unfold DataAggregation.aggregate_cashflow_data. apply returns_bind.
  eapply returns_mono.
  { apply (for_returns (λ done (cashflow_items : list DataAggregation.CashflowItem) _,
      length cashflow_items = length done ∧
      ∀ m c, cashflow_items !! m = Some c → cashflow_month m c ∧ cashflow_ranges c)).
    - split; [done|]. by intros m c.
    - intros done i rest cashflow_items w' Hrange [Hlen Hitems].
      apply range_split in Hrange. run.
      split; [by rewrite !length_app, Hlen|].
      intros m c Hm. apply lookup_app_Some in Hm as [Hm|[Hge Hm]]; [by apply Hitems|].
      apply list_lookup_singleton_Some in Hm as [Hm <-].
      assert (m = length done) as -> by lia.
      unfold cashflow_month, cashflow_ranges, expenses_total, in_range. cbn.
      split_and!; try lia; by apply randint_val_bounds. }
  intros cashflow_items w' [Hlen Hitems]. cbv beta.
  rewrite length_range in Hlen. change (Z.to_nat (6 - 0)) with 6%nat in Hlen.
  rewrite !sum_ints_with.
  do 2 run_exact_step.
  { unfold len. rewrite Hlen. reflexivity. }
  run. eexists cashflow_items, _. split_and!; try done.
  unfold len. rewrite Hlen. reflexivity.
Qed.

Lemma Zsum_add {A} (f g : A → Z) (xs : list A) :
  Zsum ((λ x, f x + g x) <$> xs) = Zsum (f <$> xs) + Zsum (g <$> xs).
Proof. unfold Zsum. induction xs as [|x xs IH]; cbn in *; lia. Qed.

Lemma Zsum_ext {A} (f g : A → Z) (xs : list A) :
  Forall (λ x, f x = g x) xs → Zsum (f <$> xs) = Zsum (g <$> xs).
Proof. unfold Zsum. induction 1; cbn in *; lia. Qed.

(** X8: the year-to-date fields of the cash-flow response are the sums
    over its six months, average_monthly_cashflow is net_cashflow_ytd / 6,
    and total_income_ytd - total_expenses_ytd exceeds net_cashflow_ytd by
    the other income of the six months, an amount in 0..12000. *)
Theorem cashflow_ytd_aggregates user_id (w : World F) :
  ∃ r w' (cashflow_items : list DataAggregation.CashflowItem) income expenses net other,
    DataAggregation.aggregate_cashflow_data user_id w = Ok (r, w') ∧
    item "cashflow_summary" (body r)
      = Some (JList (DataAggregation.cashflow_json <$> cashflow_items)) ∧
    length cashflow_items = 6%nat ∧
    item "total_income_ytd" (body r) = Some (JNum (I income)) ∧
    item "total_expenses_ytd" (body r) = Some (JNum (I expenses)) ∧
    item "net_cashflow_ytd" (body r) = Some (JNum (I net)) ∧
    item "average_monthly_cashflow" (body r) = Some (JNum (quotient (I net) (I 6))) ∧
    income = Zsum ((λ c, DataAggregation.rental (DataAggregation.income c)
                         + DataAggregation.other (DataAggregation.income c))
                   <$> cashflow_items) ∧
    expenses = Zsum ((λ c, expenses_total (DataAggregation.expenses c)) <$> cashflow_items) ∧
    net = Zsum (DataAggregation.net_cashflow <$> cashflow_items) ∧
    other = Zsum ((λ c, DataAggregation.other (DataAggregation.income c))
                  <$> cashflow_items) ∧
    income - expenses = net + other ∧
    in_range 0 12000 other.
Proof.
  destruct (proj1 (returns_Ok _ _ _) (aggregate_cashflow_data_full user_id w))
    as (r & w' & Hrun & items & date & Hlen & Hitems & ->).
  eexists _, w', items, _, _, _, _. split; [exact Hrun|].
  do 10 (split; [reflexivity || done|]).
  split.
  - rewrite Zsum_add.
    rewrite (Zsum_ext DataAggregation.net_cashflow
               (λ c, DataAggregation.rental (DataAggregation.income c)
                     + - expenses_total (DataAggregation.expenses c))).
    + rewrite Zsum_add.
      assert (Zsum ((λ c, - expenses_total (DataAggregation.expenses c)) <$> items)
              = - Zsum ((λ c, expenses_total (DataAggregation.expenses c)) <$> items))
        as ->; [|lia].
      unfold Zsum. clear. induction items as [|c cs IH]; cbn in *; lia.
    + apply Forall_lookup. intros m c Hm.
      destruct (Hitems m c Hm) as [(Hnet & _) _]. lia.
  - pose proof (Zsum_bounds 0 2000
      (λ c, DataAggregation.other (DataAggregation.income c)) items) as Hb.
    rewrite Hlen in Hb. unfold in_range. apply Hb.
    apply Forall_lookup. intros m c Hm.
    by destruct (Hitems m c Hm) as [_ (_ & ? & _)].
Qed.

End CashflowExtras.

(** X9: every cash-flow month has its eight amounts in their sampling
    ranges, expenses of 30500..43500 and a net cash flow in -3500..24500;
    the net cash flow can be negative (least rent, highest expenses:
    -3500). *)
Theorem cashflow_month_bounds :
  (∀ (G : Type) (HG : PyFloat G) (user_id : json G) (w : World G),
     ∃ r w' (cashflow_items : list DataAggregation.CashflowItem),
       DataAggregation.aggregate_cashflow_data user_id w = Ok (r, w') ∧
       item "cashflow_summary" (body r)
         = Some (JList (DataAggregation.cashflow_json <$> cashflow_items)) ∧
       length cashflow_items = 6%nat ∧
       Forall (λ c, cashflow_ranges c ∧
                    in_range 30500 43500 (expenses_total (DataAggregation.expenses c)) ∧
                    in_range (-3500) 24500 (DataAggregation.net_cashflow c))
              cashflow_items) ∧
  (∃ r w' month0 rest,
     DataAggregation.aggregate_cashflow_data (JStr "1") w_deficit = Ok (r, w') ∧
     item "cashflow_summary" (body r) = Some (JList (month0 :: rest)) ∧
     item "net_cashflow" month0 = Some (JNum (I (-3500)))).
Proof.
  split.
  - intros G HG user_id w.
    destruct (proj1 (returns_Ok _ _ _) (aggregate_cashflow_data_full user_id w))
      as (r & w' & Hrun & items & date & Hlen & Hitems & ->).
    eexists _, w', items. split; [exact Hrun|]. split; [reflexivity|]. split; [done|].
    apply Forall_lookup. intros m c Hm.
    destruct (Hitems m c Hm) as [(Hnet & _) Hrng]. split; [done|].
    unfold cashflow_ranges, expenses_total, in_range in *. lia.
  - eexists _, _, _, _. split; [vm_compute; reflexivity|]. split; reflexivity.
Qed.

Section MaintenanceExtras.
Context {F : Type} `{PyFloat F}.




End MaintenanceExtras.

Section DispatchExtras.
Context {F : Type} `{PyFloat F}.


(** X12: for a recognised (or absent) type, entry point A answers 200 and
    echoes the user_id of the request; an absent user_id becomes "1", a
    present one is returned as it is, null included. *)
Theorem aggregation_dispatcher_echoes_user_id event context (w : World F) :
  recognised selectors_A (get event "type" (JStr "portfolio")) →
  ∃ r w',
    DataAggregation.lambda_handler event context w = Ok (r, w') ∧
    statusCode r = 200 ∧
    (event !! "user_id" = None → item "user_id" (body r) = Some (JStr "1")) ∧
    (∀ v, event !! "user_id" = Some v → item "user_id" (body r) = Some v).
Proof.
  intros Hsel.
  destruct (handler_A_recognised event context w Hsel) as (r & w' & Hrun & Hstatus & Hid).
  exists r, w'. split_and!; [done..| |].
  - intros Hnone. rewrite Hid. unfold get. by rewrite Hnone.
  - intros v Hsome. rewrite Hid. unfold get. by rewrite Hsome.
Qed.

(** X13: for a recognised (or absent) analysis_type, entry point B answers
    200 and echoes a present property_id verbatim, for each of the three
    operations. *)
Theorem valuation_dispatcher_echoes_property_id event context (w : World F) v :
  event !! "property_id" = Some v →
  recognised selectors_B (get event "analysis_type" (JStr "valuation")) →
  ∃ r w',
    PropertyValuation.lambda_handler event context w = Ok (r, w') ∧
    statusCode r = 200 ∧
    item "property_id" (body r) = Some v.
Proof.
  intros Hid Hsel.
  destruct (handler_B_recognised event context w Hsel) as (r & w' & Hrun & Hstatus & Hpid).
  exists r, w'. split_and!; [done..|].
  rewrite Hpid. unfold get. by rewrite Hid.
Qed.

End DispatchExtras.

(** X12 on {"type": "cashflow", "user_id": "42", ...}. *)
Lemma aggregation_dispatcher_echoes_user_id_witness :
  ∃ r w',
    DataAggregation.lambda_handler echo_event JNull w_rates = Ok (r, w') ∧
    statusCode r = 200 ∧
    (echo_event !! "user_id" = None → item "user_id" (body r) = Some (JStr "1")) ∧
    (∀ v, echo_event !! "user_id" = Some v → item "user_id" (body r) = Some v).
Proof.
  apply (aggregation_dispatcher_echoes_user_id echo_event JNull w_rates).
  apply recognised_A. vm_compute. auto.
Defined.

(** X13 on {"analysis_type": "market_analysis", "property_id": 17, ...}. *)
Lemma valuation_dispatcher_echoes_property_id_witness :
  ∃ r w',
    PropertyValuation.lambda_handler echo_event JNull w_rates = Ok (r, w') ∧
    statusCode r = 200 ∧
    item "property_id" (body r) = Some (JNum (I 17)).
Proof.
  apply (valuation_dispatcher_echoes_property_id echo_event JNull w_rates).
  - vm_compute. reflexivity.
  - apply recognised_B. vm_compute. auto.
Defined.



(** The confidence series in exact arithmetic. *)
Example confidence_series_exact :
  (confidence_of <$> range 1 13 : list (num Q))
  = (λ q, Fl (Qred q))
    <$> [0.9; 0.85; 0.8; 0.75; 0.7; 0.65; 0.6; 0.55; 0.5; 0.5; 0.5; 0.5]%Q.
Proof. vm_compute. reflexivity. Qed.
